(** * Rainfall predictor (app.py): wind-direction encoder, weather fetcher,
      feature builder and the script's main content.

    The Python code is embedded as executable Rocq functions.

    - A Python [float] is an IEEE 754 binary64 value: [spec_float] with the
      operations of [SpecFloat] at precision 53 and exponent bound 1024.
    - A Python [int] is a [Z].
    - Exceptions are explicit: a computation returns [Ok v] or [Raise e].
    - The parsed JSON payload is a tree of Python values; the dictionary
      [weather_details] / [input_data] is a finite map keyed by strings.
    - The outside world (the HTTP call, the trained model) is a parameter of
      the functions that use it. *)

From Stdlib Require Import ZArith Lia Bool.
From Stdlib Require Import SpecFloat.
From stdpp Require Import gmap strings list pretty.

Open Scope Z_scope.

(** ** Exceptions and the result monad *)

Inductive builtin_exn :=
  | KeyError | TypeError | AttributeError | OverflowError | ValueError
  | ZeroDivisionError | IndexError.

(** Python values: what [json] can produce. *)
#[warnings="-register-all"]
Inductive pyval :=
  | VNone
  | VBool (b : bool)
  | VInt (z : Z)
  | VFloat (x : spec_float)
  | VStr (s : string)
  | VList (l : list pyval)
  | VDict (d : list (string * pyval)).

(** The response object of [requests]: what the code reads from it. *)
Record response := {
  status_code : Z;
  reason : string;
  url : string;
  body : pyval + string   (* the parsed JSON, or the decoder's complaint *)
}.

Inductive exn :=
  | HTTPError (r : response) (message : string)  (* requests.exceptions.HTTPError *)
  | RequestException (message : string)          (* any other requests exception *)
  | PyError (c : builtin_exn) (message : string).

Inductive result (A : Type) :=
  | Ok (a : A)
  | Raise (e : exn).
Arguments Ok {A} a.
Arguments Raise {A} e.

#[global] Instance result_ret : MRet result := λ A a, Ok a.
#[global] Instance result_bind : MBind result :=
  λ A B f m, match m with Ok a => f a | Raise e => Raise e end.

(** [str(e)] *)
Definition exn_str (e : exn) : string :=
  match e with
  | HTTPError _ m => m
  | RequestException m => m
  | PyError _ m => m
  end.

(** ** binary64 *)

Module Binary64.

Definition prec : Z := 53.
Definition emax : Z := 1024.

Definition fdiv : spec_float → spec_float → spec_float := SFdiv prec emax.
Definition fmul : spec_float → spec_float → spec_float := SFmul prec emax.

(** The nearest binary64 to an integer, ties to even; an infinity when
    the integer is out of range. *)
Definition of_Z (z : Z) : spec_float := binary_normalize prec emax z 0 false.

Definition is_finite (x : spec_float) : bool :=
  match x with
  | S754_zero _ | S754_finite _ _ _ => true
  | _ => false
  end.

Definition is_zero (x : spec_float) : bool :=
  match x with S754_zero _ => true | _ => false end.

(** The literals of the source. *)
Definition f360 : spec_float := S754_finite false 6333186975989760 (-44).
Definition f3_6 : spec_float := S754_finite false 8106479329266893 (-51).
Definition f22_5 : spec_float := S754_finite false 6333186975989760 (-48).
Definition f10 : spec_float := S754_finite false 5629499534213120 (-49).
Definition f36 : spec_float := S754_finite false 5066549580791808 (-47).
Definition f18 : spec_float := S754_finite false 5066549580791808 (-48).

(** [n / d] rounded to the nearest integer, ties to even ([0 < d]). *)
Definition round_half_even (n d : Z) : Z :=
  let q := n / d in
  match 2 * (n mod d) ?= d with
  | Lt => q
  | Gt => q + 1
  | Eq => if Z.even q then q else q + 1
  end.

(** A finite float [(-1)^s * m * 2^e] as a fraction [num / den]. *)
Definition num (s : bool) (m : positive) (e : Z) : Z :=
  cond_Zopp s (Zpos m) * 2 ^ Z.max e 0.
Definition den (e : Z) : Z := 2 ^ Z.max (- e) 0.

(** The mantissa of [f22_5]. *)
Definition m22_5 : Z := 6333186975989760.

Abbreviation fexp64 := (fexp prec emax).

(** The magnitude bound every binary64 value meets: below [2^1024]. *)
Definition in_range (x : spec_float) : Prop :=
  match x with
  | S754_finite _ m e => Zpos (digits2_pos m) + e <= 1024
  | _ => True
  end.

End Binary64.

Import Binary64.

(** ** Python operations used by the code *)

Definition type_name (v : pyval) : string :=
  match v with
  | VNone => "NoneType" | VBool _ => "bool" | VInt _ => "int"
  | VFloat _ => "float" | VStr _ => "str" | VList _ => "list"
  | VDict _ => "dict"
  end.

(** Conversion of a numeric operand to [float] in mixed arithmetic; [bool]
    is a subclass of [int]. *)
Definition float_of_int (z : Z) : result spec_float :=
  let x := of_Z z in
  if is_finite x then Ok x
  else Raise (PyError OverflowError "int too large to convert to float").

Definition operand_error (op : string) (v : pyval) : exn :=
  match v with
  | VStr _ | VList _ =>
      if String.eqb op "*"
      then PyError TypeError "can't multiply sequence by non-int of type 'float'"
      else PyError TypeError
             ("unsupported operand type(s) for " +:+ op +:+ ": '" +:+
              type_name v +:+ "' and 'float'")
  | _ => PyError TypeError
           ("unsupported operand type(s) for " +:+ op +:+ ": '" +:+
            type_name v +:+ "' and 'float'")
  end.

Definition as_float (op : string) (v : pyval) : result spec_float :=
  match v with
  | VFloat x => Ok x
  | VInt z => float_of_int z
  | VBool b => float_of_int (if b then 1 else 0)
  | _ => Raise (operand_error op v)
  end.

(** [v / y] for a float [y]. *)
Definition py_truediv (v : pyval) (y : spec_float) : result spec_float :=
  x ← as_float "/" v;
  if is_zero y then Raise (PyError ZeroDivisionError "float division by zero")
  else Ok (fdiv x y).

(** [v * y] for a float [y]. *)
Definition py_mul (v : pyval) (y : spec_float) : result spec_float :=
  x ← as_float "*" v;
  Ok (fmul x y).

(** [round(x)] for a float [x]: an [int], ties to even. *)
Definition py_round (x : spec_float) : result Z :=
  match x with
  | S754_zero _ => Ok 0
  | S754_finite s m e => Ok (round_half_even (num s m e) (den e))
  | S754_infinity _ =>
      Raise (PyError OverflowError "cannot convert float infinity to integer")
  | S754_nan => Raise (PyError ValueError "cannot convert float NaN to integer")
  end.

(** [l[i]] for a list, with Python's negative indices. *)
Definition py_list_index {A} (l : list A) (i : Z) : result A :=
  let n := Z.of_nat (length l) in
  let j := if i <? 0 then i + n else i in
  if (0 <=? j) && (j <? n) then
    match l !! Z.to_nat j with
    | Some a => Ok a
    | None => Raise (PyError IndexError "list index out of range")
    end
  else Raise (PyError IndexError "list index out of range").

Fixpoint dict_lookup (k : string) (d : list (string * pyval)) : option pyval :=
  match d with
  | [] => None
  | (k', v) :: d' => if String.eqb k k' then Some v else dict_lookup k d'
  end.

(** [v[k]] *)
Definition py_getitem (v : pyval) (k : string) : result pyval :=
  match v with
  | VDict d =>
      match dict_lookup k d with
      | Some x => Ok x
      | None => Raise (PyError KeyError ("'" +:+ k +:+ "'"))
      end
  | VStr _ => Raise (PyError TypeError "string indices must be integers")
  | VList _ =>
      Raise (PyError TypeError "list indices must be integers or slices, not str")
  | _ => Raise (PyError TypeError
           ("'" +:+ type_name v +:+ "' object is not subscriptable"))
  end.

(** [v.get(k, default)] *)
Definition py_get (v : pyval) (k : string) (dflt : pyval) : result pyval :=
  match v with
  | VDict d => Ok (default dflt (dict_lookup k d))
  | _ => Raise (PyError AttributeError
           ("'" +:+ type_name v +:+ "' object has no attribute 'get'"))
  end.

(** [sub in s] *)
Fixpoint str_contains (sub s : string) : bool :=
  String.prefix sub s ||
  match s with
  | EmptyString => false
  | String _ s' => str_contains sub s'
  end.

(** [s.endswith(suffix)] *)
Fixpoint str_endswith (s suffix : string) : bool :=
  String.eqb suffix s ||
  match s with
  | EmptyString => false
  | String _ s' => str_endswith s' suffix
  end.

(** Truth value of a string: [not s] holds exactly for the empty string. *)
Definition str_truthy (s : string) : bool :=
  match s with EmptyString => false | _ => true end.

(** ** Helper: degrees to cardinal direction (app.py, lines 34-38) *)

Definition dirs : list string :=
  ["N"; "NNE"; "NE"; "ENE"; "E"; "ESE"; "SE"; "SSE";
   "S"; "SSW"; "SW"; "WSW"; "W"; "WNW"; "NW"; "NNW"].

(** [len(dirs)] *)
Definition len_dirs : Z := Z.of_nat (length dirs).

Definition degrees_to_cardinal (d : pyval) : result string :=
  sector ← py_truediv (VFloat f360) (of_Z len_dirs);   (* 360. / len(dirs) *)
  q ← py_truediv d sector;
  ix ← py_round q;                                     (* int(round(...)) *)
  py_list_index dirs (ix mod len_dirs).

(** The sector index as the specification words it: the quotient by 22.5,
    rounded, reduced modulo 16 into 0..15. *)
Definition spec_sector_index (x : spec_float) : result Z :=
  r ← py_round (fdiv x f22_5);
  Ok (r mod 16).

(** A finite number: a binary64 value other than the infinities and NaN,
    or an [int] (a [bool]) that converts to one. *)
Definition finite_number (d : pyval) : Prop :=
  match d with
  | VFloat x => valid_binary prec emax x = true ∧ is_finite x = true
  | VInt z => is_finite (of_Z z) = true
  | VBool _ => True
  | _ => False
  end.

(** ** The outside world *)

Record request := {
  req_url : string;
  req_params : list (string * string)
}.

(** What [requests.get] does with a request: it returns a response, or it
    raises (connection refused, DNS failure, timeout, ...). *)
Inductive http_outcome :=
  | Responded (r : response)
  | Failed (message : string).

(** [DataFrame] with one row: the columns in order, with the row's values. *)
Definition frame := list (string * pyval).

(** ** Weather fetcher (app.py, lines 40-74) *)

(** The text of the [HTTPError] that [raise_for_status] builds. *)
Definition http_error_msg (kind : string) (r : response) : string :=
  pretty (status_code r) +:+ " " +:+ kind +:+ " Error: " +:+ reason r +:+
  " for url: " +:+ url r.

(** [Response.raise_for_status] of the [requests] library: it raises
    [HTTPError] for the status codes 400..599 and returns for all others. *)
Definition raise_for_status (r : response) : result unit :=
  if (400 <=? status_code r) && (status_code r <? 500) then
    Raise (HTTPError r (http_error_msg "Client" r))
  else if (500 <=? status_code r) && (status_code r <? 600) then
    Raise (HTTPError r (http_error_msg "Server" r))
  else Ok ().

(** [Response.json] *)
Definition response_json (r : response) : result pyval :=
  match body r with
  | inl v => Ok v
  | inr complaint => Raise (RequestException complaint)
  end.

Definition base_url : string := "http://api.openweathermap.org/data/2.5/weather".

Definition weather_request (city api_key : string) : request :=
  {| req_url := base_url;
     req_params := [("q", city); ("appid", api_key); ("units", "metric")] |}.

Definition msg_no_key : string :=
  "API Key is not configured. Please add it to your secrets.toml file.".
Definition msg_no_city : string := "City name is missing.".
Definition msg_invalid_key : string :=
  "Invalid API Key in secrets.toml. Please check your key or wait for it to become active.".
Definition msg_city_not_found (city : string) : string :=
  "City '" +:+ city +:+ "' not found. Please check the spelling.".
Definition msg_http_error (e : exn) : string :=
  "An HTTP error occurred: " +:+ exn_str e.
Definition msg_unexpected (e : exn) : string :=
  "An unexpected error occurred: " +:+ exn_str e.

(** The speed that line 59 multiplies by 3.6:
    [data.get('wind', {}).get('gust', data.get('wind', {}).get('speed', 0))]. *)
Definition gust_or_speed (data : pyval) : result pyval :=
  wind ← py_get data "wind" (VDict []);
  wind' ← py_get data "wind" (VDict []);
  speed ← py_get wind' "speed" (VInt 0);
  py_get wind "gust" speed.

(** The body of the [try] block once the response is there. *)
Definition read_weather (r : response) : result (gmap string pyval) :=
  _ ← raise_for_status r;
  data ← response_json r;
  min_temp ← py_getitem data "main" ≫= λ m, py_getitem m "temp_min";
  max_temp ← py_getitem data "main" ≫= λ m, py_getitem m "temp_max";
  gust ← gust_or_speed data ≫= λ v, py_mul v f3_6;     (* m/s to km/h *)
  humidity ← py_getitem data "main" ≫= λ m, py_getitem m "humidity";
  pressure ← py_getitem data "main" ≫= λ m, py_getitem m "pressure";
  temp ← py_getitem data "main" ≫= λ m, py_getitem m "temp";
  wind_dir ← (py_get data "wind" (VDict []) ≫= λ w, py_get w "deg" (VInt 0))
             ≫= degrees_to_cardinal;
  Ok (<["MinTemp" := min_temp]> (<["MaxTemp" := max_temp]>
      (<["WindGustSpeed" := VFloat gust]> (<["Humidity" := humidity]>
      (<["Pressure" := pressure]> (<["Temp" := temp]>
      (<["WindGustDir" := VStr wind_dir]> ∅))))))).

(** The two [except] clauses: what each exception of the [try] block is
    turned into. *)
Definition on_exception (city : string) (e : exn) : string :=
  match e with
  | HTTPError r _ =>
      if status_code r =? 401 then msg_invalid_key
      else if status_code r =? 404 then msg_city_not_found city
      else msg_http_error e
  | _ => msg_unexpected e
  end.

Section App.

(** The weather provider, and the artefact loaded at start-up: the
    classifier's two operations on a one-row frame and the ordered list
    of the features it was trained on. *)
Variable requests_get : request → http_outcome.
Variable model_features : list string.
Variable model_predict : frame → result Z.
Variable model_predict_proba : frame → result spec_float.

Definition try_block (city api_key : string) : result (gmap string pyval) :=
  match requests_get (weather_request city api_key) with
  | Responded r => read_weather r
  | Failed m => Raise (RequestException m)
  end.

(** [fetch_weather_data]: the returned pair [(weather_details, message)],
    together with the requests it sent, in order. The ten-minute cache of
    the decorator is not part of the model: it replays the pair of an
    earlier call with the same arguments. *)
Definition fetch_weather_data (city api_key : string)
  : (option (gmap string pyval) * option string) * list request :=
  if negb (str_truthy api_key) then ((None, Some msg_no_key), [])
  else if negb (str_truthy city) then ((None, Some msg_no_city), [])
  else
    match try_block city api_key with
    | Ok weather_details =>
        ((Some weather_details, None), [weather_request city api_key])
    | Raise e =>
        ((None, Some (on_exception city e)), [weather_request city api_key])
    end.

(** ** Prediction button handler (app.py, lines 142-156) *)

(** [input_data.pop(k)] *)
Definition dict_pop (k : string) (m : gmap string pyval)
  : result (pyval * gmap string pyval) :=
  match m !! k with
  | Some v => Ok (v, delete k m)
  | None => Raise (PyError KeyError ("'" +:+ k +:+ "'"))
  end.

(** [1 if feature.endswith(wind_dir) else 0] *)
Definition marker_value (feature : string) (wind_dir : pyval) : result pyval :=
  match wind_dir with
  | VStr w => Ok (VInt (if str_endswith feature w then 1 else 0))
  | _ => Raise (PyError TypeError
           ("endswith first arg must be str or a tuple of str, not " +:+
            type_name wind_dir))
  end.

(** The loop of lines 148-150 over the features still to visit. *)
Fixpoint one_hot_loop (wind_dir : pyval) (features : list string)
    (input_data : gmap string pyval) : result (gmap string pyval) :=
  match features with
  | [] => Ok input_data
  | feature :: rest =>
      if str_contains "WindGustDir_" feature then
        v ← marker_value feature wind_dir;
        one_hot_loop wind_dir rest (<[feature := v]> input_data)
      else one_hot_loop wind_dir rest input_data
  end.

(** The requested columns that the dictionary does not have. *)
Definition missing_labels (input_data : gmap string pyval)
    (columns : list string) : list string :=
  filter (λ c, input_data !! c = None) columns.

(** [pd.DataFrame([input_data])[columns]]: the listed columns in the listed
    order; pandas raises [KeyError] naming the labels that are no column. *)
Definition select_columns (input_data : gmap string pyval)
    (columns : list string) : result frame :=
  match mapM (λ c, pair c <$> input_data !! c) columns with
  | Some row => Ok row
  | None =>
      Raise (PyError KeyError
        ("[" +:+ String.concat ", " (missing_labels input_data columns)
         +:+ "] not in index"))
  end.

(** Lines 145-152: from [weather_data] to [input_df]. *)
Definition build_input (weather_data : gmap string pyval) : result frame :=
  '(wind_dir, input_data) ← dict_pop "WindGustDir" weather_data;
  input_data ← one_hot_loop wind_dir model_features input_data;
  select_columns input_data model_features.

(** ** Main content (app.py, lines 125-171) *)

Inductive widget :=
  | st_error (message : string)
  | st_info (message : string)
  | live_weather (city : string) (temp humidity pressure : pyval)
  | rain_card (rain : bool) (probability : spec_float).

(** One run of the script: what it put on the page, and the exception
    that ended it, if one did. *)
Record run := {
  page : list widget;
  uncaught : option exn
}.

Definition finished (ws : list widget) : run :=
  {| page := ws; uncaught := None |}.

Definition aborted (ws : list widget) (e : exn) : run :=
  {| page := ws; uncaught := Some e |}.

(** [weather_data[k]] *)
Definition dict_item (m : gmap string pyval) (k : string) : result pyval :=
  match m !! k with
  | Some v => Ok v
  | None => Raise (PyError KeyError ("'" +:+ k +:+ "'"))
  end.

(** The three metrics of lines 136-139. *)
Definition show_weather (city : string) (weather_data : gmap string pyval)
  : result widget :=
  temp ← dict_item weather_data "Temp";
  humidity ← dict_item weather_data "Humidity";
  pressure ← dict_item weather_data "Pressure";
  Ok (live_weather city temp humidity pressure).

(** Lines 143-169: build, predict, display. *)
Definition on_predict (weather_data : gmap string pyval) : result widget :=
  input_df ← build_input weather_data;
  prediction ← model_predict input_df;
  probability ← model_predict_proba input_df;
  Ok (rain_card (prediction =? 1) probability).

Definition msg_enter_city : string :=
  "Please enter a City Name above to start.".

(** The [elif weather_data:] branch. *)
Definition show_content (city : string)
    (weather_data : option (gmap string pyval)) (clicked : bool) : run :=
  match weather_data with
  | Some wd =>
      if bool_decide (wd = ∅) then finished []
      else
        match show_weather city wd with
        | Raise e => aborted [] e
        | Ok w =>
            if clicked then
              match on_predict wd with
              | Ok card => finished [w; card]
              | Raise e => aborted [w] e
              end
            else finished [w]
        end
  | None => finished []
  end.

Definition main_content (city api_key : string) (clicked : bool) : run :=
  if str_truthy city then
    let '(weather_data, error_message) := fst (fetch_weather_data city api_key) in
    match error_message with
    | Some message =>
        if str_truthy message then finished [st_error message]
        else show_content city weather_data clicked
    | None => show_content city weather_data clicked
    end
  else finished [st_info msg_enter_city].

Definition msg_no_secret : string :=
  "API Key not found. Please ensure you have a .streamlit/secrets.toml file with your key.".

(** Lines 118-171. [secret] is the entry [OPENWEATHER_API_KEY] of the
    secrets, if there is one; without it the script shows an error and
    stops. The static widgets (title, header, text input) are left out. *)
Definition script (secret : option string) (city : string) (clicked : bool)
  : run :=
  match secret with
  | Some api_key => main_content city api_key clicked
  | None => finished [st_error msg_no_secret]
  end.

End App.

(** ** Reference definitions and the sample scenario *)

(** The speed to convert, as the specification words it: the gust if
    present, otherwise the wind speed if present, otherwise 0. *)
Definition spec_gust_choice (data : pyval) : pyval :=
  match data with
  | VDict d =>
      match dict_lookup "wind" d with
      | Some (VDict w) =>
          match dict_lookup "gust" w with
          | Some gust => gust
          | None => default (VInt 0) (dict_lookup "speed" w)
          end
      | _ => VInt 0
      end
  | _ => VInt 0
  end.

(** One wind-direction marker column per label. *)
Definition marker_columns : list string :=
  String.append "WindGustDir_" <$> dirs.

(** The six numeric attributes followed by the sixteen marker columns. *)
Definition full_features : list string :=
  ["MinTemp"; "MaxTemp"; "WindGustSpeed"; "Humidity"; "Pressure"; "Temp"]
  ++ marker_columns.

(** The sum of the wind-direction columns of a frame. *)
Definition one_hot_sum (df : frame) : Z :=
  foldr (λ '(c, v) acc,
           if str_contains "WindGustDir_" c
           then match v with VInt z => z + acc | _ => acc end
           else acc) 0 df.

(** How many ones the loop of lines 148-150 writes for wind direction [w]:
    one for each marker feature that ends with [w]. *)
Definition marker_count (w : string) (features : list string) : Z :=
  foldr (λ c acc,
           if str_contains "WindGustDir_" c
           then (if str_endswith c w then 1 else 0) + acc
           else acc) 0 features.

(** The provider payload of the specification's end-to-end scenario. *)
Definition chandigarh_payload : pyval :=
  VDict [("main", VDict [("temp", VInt 25); ("temp_min", VInt 20);
                         ("temp_max", VInt 30); ("humidity", VInt 60);
                         ("pressure", VInt 1012)]);
         ("wind", VDict [("speed", VInt 5); ("deg", VInt 90)])].

Definition chandigarh_response (status : Z) (why : string) : response :=
  {| status_code := status; reason := why;
     url := "http://api.openweathermap.org/data/2.5/weather?q=Chandigarh";
     body := inl chandigarh_payload |}.

(** A provider that answers every request with the same response. *)
Definition always (r : response) : request → http_outcome := λ _, Responded r.

(** The observation of the scenario: wind from the east. *)
Definition chandigarh_weather : gmap string pyval :=
  <["MinTemp" := VInt 20]> (<["MaxTemp" := VInt 30]>
  (<["WindGustSpeed" := VFloat f18]> (<["Humidity" := VInt 60]>
  (<["Pressure" := VInt 1012]> (<["Temp" := VInt 25]>
  (<["WindGustDir" := VStr "E"]> ∅)))))).

(** A stub classifier: label 1 with probability 0.73. *)
Definition stub_predict : frame → result Z := λ _, Ok 1.
Definition stub_predict_proba : frame → result spec_float :=
  λ _, Ok (S754_finite false 6575255455960924 (-53)).

(** ** Model loading (app.py, lines 15-31) *)

Definition model_path : string := "weather_prediction_model.joblib".

(** What [joblib.load] can return, as far as the code looks at it: a
    dictionary with string keys, or an object of some other type. *)
Inductive loaded (obj : Type) :=
  | LDict (entries : list (string * obj))
  | LOther (type : string).
Arguments LDict {obj} entries.
Arguments LOther {obj} type.

(** [load_model_and_features] returns the pair, or it stops the script
    ([st.stop]) with what it has put on the page. *)
Inductive load_outcome (obj : Type) :=
  | Loaded (model features : obj)
  | Stopped (shown : list widget).
Arguments Loaded {obj} model features.
Arguments Stopped {obj} shown.

Fixpoint entry_lookup {obj} (k : string) (d : list (string * obj)) : option obj :=
  match d with
  | [] => None
  | (k', v) :: d' => if String.eqb k k' then Some v else entry_lookup k d'
  end.

(** [data[k]] *)
Definition loaded_getitem {obj} (data : loaded obj) (k : string) : result obj :=
  match data with
  | LDict d =>
      match entry_lookup k d with
      | Some v => Ok v
      | None => Raise (PyError KeyError ("'" +:+ k +:+ "'"))
      end
  | LOther type =>
      Raise (PyError TypeError ("'" +:+ type +:+ "' object is not subscriptable"))
  end.

Definition msg_model_missing : string :=
  "Fatal Error: Model file '" +:+ model_path +:+ "' not found.".
Definition msg_model_hint : string :=
  "Please make sure the model is trained and saved in the same directory.".
Definition msg_model_error (complaint : string) : string :=
  "Error loading model file: " +:+ complaint.

(** [file_exists] is [os.path.exists(model_path)]; [joblib_load] is what
    [joblib.load(model_path)] does: it returns an object, or raises an
    exception with the given text. The cache of the decorator is not part of
    the model. *)
Definition load_model_and_features {obj} (file_exists : bool)
    (joblib_load : loaded obj + string) : load_outcome obj :=
  if negb file_exists then
    Stopped [st_error msg_model_missing; st_info msg_model_hint]
  else
    match joblib_load with
    | inr complaint => Stopped [st_error (msg_model_error complaint)]
    | inl data =>
        match (model ← loaded_getitem data "model";
               features ← loaded_getitem data "features";
               Ok (model, features)) with
        | Ok (model, features) => Loaded model features
        | Raise e => Stopped [st_error (msg_model_error (exn_str e))]
        end
    end.

(** The labels that are a suffix of no other label. *)
Definition suffix_free_dirs : list string :=
  ["N"; "NNE"; "ENE"; "ESE"; "SSE"; "S"; "SSW"; "WSW"; "WNW"; "NNW"].

(** The label opposite to the one at index [i] with respect to north. *)
Definition mirror_index (i : Z) : Z := (- i) mod 16.

(** * Properties *)

(** ** Binary digits and right shifts *)

Module Binary64Facts.

Lemma digits2_pos_bounds (p : positive) :
  2 ^ (Zpos (digits2_pos p) - 1) <= Zpos p < 2 ^ Zpos (digits2_pos p).
Proof.
  induction p as [p IH | p IH |]; cbn [digits2_pos].
  - rewrite Pos2Z.inj_succ, Z.pow_succ_r by lia.
    replace (Z.succ (Zpos (digits2_pos p)) - 1)
      with (Z.succ (Zpos (digits2_pos p) - 1)) by lia.
    rewrite Z.pow_succ_r by lia. lia.
  - rewrite Pos2Z.inj_succ, Z.pow_succ_r by lia.
    replace (Z.succ (Zpos (digits2_pos p)) - 1)
      with (Z.succ (Zpos (digits2_pos p) - 1)) by lia.
    rewrite Z.pow_succ_r by lia. lia.
  - cbn. lia.
Qed.

Lemma Zdigits2_nonneg (m : Z) : 0 <= Zdigits2 m.
Proof. destruct m; cbn; lia. Qed.

Lemma Zdigits2_upper (m : Z) : 0 <= m → m < 2 ^ Zdigits2 m.
Proof.
  destruct m as [| p | p]; cbn [Zdigits2]; intros H; try lia.
  apply digits2_pos_bounds.
Qed.

Lemma Zdigits2_lower (m : Z) : 0 < m → 2 ^ (Zdigits2 m - 1) <= m.
Proof.
  destruct m as [| p | p]; cbn [Zdigits2]; intros H; try lia.
  apply digits2_pos_bounds.
Qed.

(** A number below [2^k] has at most [k] digits. *)
Lemma Zdigits2_le (m k : Z) : 0 <= m → 0 <= k → m < 2 ^ k → Zdigits2 m <= k.
Proof.
  intros Hm Hk Hlt.
  destruct (Z.eq_dec m 0) as [-> | Hne]; [cbn; lia |].
  pose proof (Zdigits2_lower m ltac:(lia)) as Hlo.
  pose proof (Zdigits2_nonneg m).
  destruct (Z.le_gt_cases (Zdigits2 m) k) as [|Hgt]; [assumption |].
  exfalso.
  assert (2 ^ k <= 2 ^ (Zdigits2 m - 1)) by (apply Z.pow_le_mono_r; lia).
  lia.
Qed.

(** Dropping [n] low bits drops [n] digits. *)
Lemma Zdigits2_shift (m n : Z) :
  0 <= m → 0 <= n → Zdigits2 (m / 2 ^ n) <= Z.max (Zdigits2 m - n) 0.
Proof.
  intros Hm Hn.
  pose proof (Zdigits2_upper m Hm) as Hup.
  pose proof (Zdigits2_nonneg m) as Hd.
  assert (0 < 2 ^ n) by (apply Z.pow_pos_nonneg; lia).
  assert (0 <= m / 2 ^ n) by (apply Z.div_pos; lia).
  apply Zdigits2_le; [assumption | lia |].
  apply Z.div_lt_upper_bound; [lia |].
  destruct (Z.le_gt_cases n (Zdigits2 m)).
  - rewrite Z.max_l by lia. rewrite <- Z.pow_add_r by lia.
    replace (n + (Zdigits2 m - n)) with (Zdigits2 m) by lia. assumption.
  - rewrite Z.max_r by lia. rewrite Z.pow_0_r, Z.mul_1_r.
    assert (2 ^ Zdigits2 m <= 2 ^ n) by (apply Z.pow_le_mono_r; lia). lia.
Qed.

Lemma Zdigits2_succ (m : Z) : 0 <= m → Zdigits2 (m + 1) <= Zdigits2 m + 1.
Proof.
  intros Hm.
  pose proof (Zdigits2_upper m Hm). pose proof (Zdigits2_nonneg m).
  apply Zdigits2_le; [lia | lia |].
  rewrite Z.pow_add_r by lia. change (2 ^ 1) with 2. lia.
Qed.

Lemma shr_1_m (mrs : shr_record) :
  0 <= shr_m mrs → shr_m (shr_1 mrs) = shr_m mrs / 2.
Proof.
  destruct mrs as [m r s]. cbn [shr_m]. intros Hm.
  destruct m as [| [p | p |] | p]; cbn [shr_1 shr_m].
  - reflexivity.
  - rewrite Pos2Z.inj_xI. apply Z.div_unique with (r := 1); lia.
  - rewrite Pos2Z.inj_xO. apply Z.div_unique with (r := 0); lia.
  - reflexivity.
  - lia.
Qed.

Lemma div_pow2_nonneg (m k : Z) : 0 <= m → 0 <= m / 2 ^ k.
Proof.
  intros Hm. destruct (Z.le_gt_cases 0 k).
  - apply Z.div_pos; [lia | apply Z.pow_pos_nonneg; lia].
  - rewrite Z.pow_neg_r by lia. rewrite Z.div_0_r. lia.
Qed.

Lemma iter_shr_1_m (p : positive) (mrs : shr_record) :
  0 <= shr_m mrs →
  shr_m (SpecFloat.iter_pos shr_1 p mrs) = shr_m mrs / 2 ^ Zpos p.
Proof.
  revert mrs.
  induction p as [p IH | p IH |]; intros mrs Hm; cbn [SpecFloat.iter_pos].
  - assert (H1 : 0 <= shr_m (shr_1 mrs))
      by (rewrite shr_1_m by assumption; apply Z.div_pos; lia).
    assert (H2 : 0 <= shr_m (SpecFloat.iter_pos shr_1 p (shr_1 mrs)))
      by (rewrite IH by assumption; apply div_pow2_nonneg; assumption).
    rewrite IH, IH, shr_1_m by assumption.
    rewrite !Z.div_div by (try apply Z.pow_pos_nonneg; lia).
    f_equal. rewrite Pos2Z.inj_xI.
    rewrite <- Z.pow_add_r, <- Z.pow_succ_r by lia. f_equal. lia.
  - assert (H1 : 0 <= shr_m (SpecFloat.iter_pos shr_1 p mrs))
      by (rewrite IH by assumption; apply div_pow2_nonneg; assumption).
    rewrite IH, IH by assumption.
    rewrite !Z.div_div by (try apply Z.pow_pos_nonneg; lia).
    f_equal. rewrite Pos2Z.inj_xO.
    rewrite <- Z.pow_add_r by lia. f_equal. lia.
  - rewrite shr_1_m by assumption. reflexivity.
Qed.

(** ** Rounding to binary64 *)

Lemma fexp64_eq (e : Z) : fexp64 e = Z.max (e - 53) (-1074).
Proof. reflexivity. Qed.

Lemma shr_record_of_loc_m (m : Z) (l : location) :
  shr_m (shr_record_of_loc m l) = m.
Proof. destruct l as [| []]; reflexivity. Qed.

(** [shr_fexp] moves the exponent up to the one the format wants and
    drops the low bits of the mantissa. *)
Lemma shr_fexp_spec (m e : Z) (l : location) (mrs : shr_record) (e1 : Z) :
  0 <= m →
  shr_fexp prec emax m e l = (mrs, e1) →
  e1 = Z.max e (fexp64 (Zdigits2 m + e)) ∧ shr_m mrs = m / 2 ^ (e1 - e).
Proof.
  intros Hm. unfold shr_fexp, shr.
  destruct (fexp64 (Zdigits2 m + e) - e) as [| p | p] eqn:Hn;
    intros [= <- <-].
  - split; [lia |]. rewrite shr_record_of_loc_m.
    rewrite Z.sub_diag, Z.pow_0_r, Z.div_1_r. reflexivity.
  - split; [lia |].
    rewrite iter_shr_1_m by (rewrite shr_record_of_loc_m; assumption).
    rewrite shr_record_of_loc_m. do 2 f_equal. lia.
  - split; [lia |]. rewrite shr_record_of_loc_m.
    rewrite Z.sub_diag, Z.pow_0_r, Z.div_1_r. reflexivity.
Qed.

Lemma round_nearest_even_cases (m : Z) (l : location) :
  round_nearest_even m l = m ∨ round_nearest_even m l = m + 1.
Proof.
  destruct l as [| []]; cbn; auto. destruct (Z.even m); auto.
Qed.

(** What [binary_round_aux] returns, in terms of the two shifts and the
    rounding step between them. *)
Lemma binary_round_aux_spec (sx : bool) (mx ex : Z) (lx : location) :
  0 <= mx →
  ∃ e1 m1 mr e2 mf,
    e1 = Z.max ex (fexp64 (Zdigits2 mx + ex)) ∧
    m1 = mx / 2 ^ (e1 - ex) ∧
    (mr = m1 ∨ mr = m1 + 1) ∧
    e2 = Z.max e1 (fexp64 (Zdigits2 mr + e1)) ∧
    mf = mr / 2 ^ (e2 - e1) ∧
    binary_round_aux prec emax sx mx ex lx =
      match mf with
      | Z0 => S754_zero sx
      | Zpos m => if e2 <=? 971 then S754_finite sx m e2 else S754_infinity sx
      | Zneg _ => S754_nan
      end.
Proof.
  intros Hmx. unfold binary_round_aux.
  destruct (shr_fexp prec emax mx ex lx) as [mrs1 e1] eqn:H1.
  destruct (shr_fexp_spec _ _ _ _ _ Hmx H1) as [He1 Hm1].
  set (mr := round_nearest_even (shr_m mrs1) (loc_of_shr_record mrs1)).
  assert (Hm1' : 0 <= shr_m mrs1)
    by (rewrite Hm1; apply div_pow2_nonneg; assumption).
  assert (Hmr : 0 <= mr)
    by (destruct (round_nearest_even_cases (shr_m mrs1)
          (loc_of_shr_record mrs1)); lia).
  destruct (shr_fexp prec emax mr e1 loc_Exact) as [mrs2 e2] eqn:H2.
  destruct (shr_fexp_spec _ _ _ _ _ Hmr H2) as [He2 Hm2].
  exists e1, (shr_m mrs1), mr, e2, (shr_m mrs2).
  repeat split; try assumption.
  apply round_nearest_even_cases.
Qed.

Lemma valid_in_range (x : spec_float) :
  valid_binary prec emax x = true → in_range x.
Proof.
  destruct x as [| | | s m e]; cbn; trivial.
  unfold bounded, canonical_mantissa. rewrite andb_true_iff.
  intros [Hc He]. apply Z.eqb_eq in Hc. apply Z.leb_le in He.
  rewrite fexp64_eq in Hc. unfold emax, prec in He. lia.
Qed.

(** No overflow when the rounded number is below [2^1023]. *)
Lemma binary_round_aux_finite (sx : bool) (mx ex : Z) (lx : location) :
  0 <= mx → ex <= 970 → Zdigits2 mx + ex <= 1023 →
  is_finite (binary_round_aux prec emax sx mx ex lx) = true.
Proof.
  intros Hmx Hex Hd.
  destruct (binary_round_aux_spec sx mx ex lx Hmx)
    as (e1 & m1 & mr & e2 & mf & He1 & Hm1 & Hmr & He2 & Hmf & ->).
  rewrite fexp64_eq in He1, He2.
  assert (0 <= m1) by (subst m1; apply div_pow2_nonneg; assumption).
  assert (Zdigits2 m1 <= Z.max (Zdigits2 mx - (e1 - ex)) 0)
    by (subst m1; apply Zdigits2_shift; lia).
  assert (Zdigits2 mr <= Zdigits2 m1 + 1).
  { destruct Hmr as [-> | ->]; [lia | apply Zdigits2_succ; assumption]. }
  assert (0 <= mf) by (subst mf; apply div_pow2_nonneg; lia).
  pose proof (Zdigits2_nonneg mx).
  destruct mf as [| m | m]; [reflexivity | | lia].
  replace (e2 <=? 971) with true by (symmetry; apply Z.leb_le; lia).
  reflexivity.
Qed.

(** Whatever [binary_round_aux] returns is below [2^1024]. *)
Lemma binary_round_aux_in_range (sx : bool) (mx ex : Z) (lx : location) :
  0 <= mx → in_range (binary_round_aux prec emax sx mx ex lx).
Proof.
  intros Hmx.
  destruct (binary_round_aux_spec sx mx ex lx Hmx)
    as (e1 & m1 & mr & e2 & mf & He1 & Hm1 & Hmr & He2 & Hmf & ->).
  rewrite fexp64_eq in He2.
  assert (0 <= m1) by (subst m1; apply div_pow2_nonneg; assumption).
  assert (0 <= mr) by lia.
  destruct mf as [| m | m] eqn:Em; cbn; trivial.
  destruct (e2 <=? 971) eqn:Ee; cbn; trivial.
  apply Z.leb_le in Ee.
  assert (Hs : Zdigits2 (mr / 2 ^ (e2 - e1)) <= Z.max (Zdigits2 mr - (e2 - e1)) 0)
    by (apply Zdigits2_shift; lia).
  rewrite <- Hmf in Hs. cbn [Zdigits2] in Hs. lia.
Qed.

(** *** Division by 22.5 *)

Lemma m22_5_eq : m22_5 = 45 * 2 ^ 47.
Proof. reflexivity. Qed.

Lemma div_core_22_5 (m : positive) (e : Z) :
  ∃ q e' l s,
    SFdiv_core_binary prec emax (Zpos m) e m22_5 (-48) = (q, e', l) ∧
    e' = Z.min (fexp64 (Zpos (digits2_pos m) + e - 5)) (e + 48) ∧
    s = e + 48 - e' ∧ 0 <= s ∧
    q = (Zpos m * 2 ^ s) / m22_5.
Proof.
  unfold SFdiv_core_binary.
  change (Zdigits2 (Z.pos m)) with (Zpos (digits2_pos m)).
  change (Zdigits2 m22_5 + -48) with 5.
  set (e' := Z.min (fexp64 (Zpos (digits2_pos m) + e - 5)) (e - -48)).
  set (s := e - -48 - e').
  assert (Hs : 0 <= s) by lia.
  set (m' := match s with Z0 => Zpos m | Zpos _ => Z.shiftl (Zpos m) s
             | Zneg _ => 0 end).
  assert (Hm' : m' = Zpos m * 2 ^ s).
  { subst m'. destruct s as [| p | p] eqn:Es.
    - rewrite Z.pow_0_r. lia.
    - apply Z.shiftl_mul_pow2. lia.
    - lia. }
  destruct (Z.div_eucl m' m22_5) as [q r] eqn:Hqr.
  exists q, e', (new_location m22_5 r), s.
  repeat split; try (subst e' s; lia).
  rewrite <- Hm'. unfold Z.div. rewrite Hqr. reflexivity.
Qed.

Lemma fdiv_22_5_finite (x : spec_float) :
  in_range x → is_finite x = true → is_finite (fdiv x f22_5) = true.
Proof.
  destruct x as [s | s | | s m e]; cbn [in_range is_finite];
    intros Hr Hf; try discriminate; [reflexivity |].
  unfold fdiv, f22_5, SFdiv. fold m22_5.
  destruct (div_core_22_5 m e) as (q & e' & l & sh & -> & He' & Hsh & Hsh0 & Hq).
  rewrite fexp64_eq in He'.
  assert (H2 : 0 < 2 ^ sh) by (apply Z.pow_pos_nonneg; lia).
  assert (Hq0 : 0 <= q) by (subst q; apply Z.div_pos; [lia | reflexivity]).
  pose proof (digits2_pos_bounds m) as [_ Hm].
  apply binary_round_aux_finite; [assumption | lia |].
  (* q < 2^(digits m + sh - 52) *)
  set (D := Zpos (digits2_pos m)) in *.
  assert (Hql : Zdigits2 q <= Z.max (D + sh - 52) 0).
  { apply Zdigits2_le; [assumption | lia |].
    subst q. apply Z.div_lt_upper_bound; [reflexivity |].
    destruct (Z.le_gt_cases 52 (D + sh)).
    - rewrite Z.max_l by lia.
      assert (2 ^ 52 * 2 ^ (D + sh - 52) = 2 ^ D * 2 ^ sh) as Hp.
      { rewrite <- !Z.pow_add_r by lia. f_equal. lia. }
      assert (2 ^ 52 <= m22_5) by (now vm_compute).
      assert (0 < 2 ^ (D + sh - 52)) by (apply Z.pow_pos_nonneg; lia).
      nia.
    - rewrite Z.max_r by lia. rewrite Z.pow_0_r.
      assert (2 ^ D * 2 ^ sh < 2 ^ 52).
      { rewrite <- Z.pow_add_r by lia. apply Z.pow_lt_mono_r; lia. }
      assert (2 ^ 52 <= m22_5) by (now vm_compute).
      nia. }
  lia.
Qed.

(** *** Rounding a fraction to the nearest integer *)

Lemma round_half_even_unique (n d r : Z) :
  0 < d → 2 * Z.abs (n - r * d) < d → round_half_even n d = r.
Proof.
  intros Hd Hr. unfold round_half_even.
  pose proof (Z.div_mod n d ltac:(lia)) as Hdm.
  pose proof (Z.mod_pos_bound n d Hd) as Hm.
  revert Hdm Hm. generalize (n / d) (n mod d). intros q m Hdm Hm.
  assert (Hcases : r <= q - 2 ∨ r = q - 1 ∨ r = q ∨ r = q + 1 ∨ q + 2 <= r)
    by lia.
  assert (Hk : n - r * d = d * (q - r) + m) by lia.
  rewrite Hk in Hr. clear Hk Hdm.
  destruct Hcases as [H | [-> | [-> | [-> | H]]]].
  - assert (2 * d <= d * (q - r)) by nia. lia.
  - replace (q - (q - 1)) with 1 in Hr by lia. lia.
  - replace (q - q) with 0 in Hr by lia.
    destruct (Z.compare_spec (2 * m) d); lia.
  - replace (q - (q + 1)) with (-1) in Hr by lia.
    destruct (Z.compare_spec (2 * m) d); lia.
  - assert (d * (q - r) <= -2 * d) by nia. lia.
Qed.

Lemma round_half_even_near (n d : Z) :
  0 < d → 2 * Z.abs (n - round_half_even n d * d) <= d.
Proof.
  intros Hd. unfold round_half_even.
  pose proof (Z.div_mod n d ltac:(lia)) as Hdm.
  pose proof (Z.mod_pos_bound n d Hd) as Hm.
  destruct (Z.compare_spec (2 * (n mod d)) d) as [He | Hl | Hg];
    [destruct (Z.even (n / d)) |..]; nia.
Qed.

(** Adding a multiple of the denominator shifts the rounded value. *)
Lemma round_half_even_add (n d k : Z) :
  0 < d → Z.even k = true →
  round_half_even (n + k * d) d = round_half_even n d + k.
Proof.
  intros Hd Hk. unfold round_half_even.
  rewrite Z.div_add, Z.mod_add by lia.
  rewrite Z.even_add, Hk.
  destruct (2 * (n mod d) ?= d); [destruct (Z.even (n / d)); cbn |..]; lia.
Qed.

(** A binary fraction within [2^-E] of [a / 45], [E >= 7], rounds like
    [a / 45]: a fraction with denominator 45 is at least 1/90 away from
    every half-integer. *)
Lemma round_near_45 (a b E : Z) :
  7 <= E → Z.abs (45 * b - a * 2 ^ E) <= 45 →
  round_half_even b (2 ^ E) = round_half_even a 45.
Proof.
  intros HE Hab.
  assert (HT : 2 ^ 7 <= 2 ^ E) by (apply Z.pow_le_mono_r; lia).
  change (2 ^ 7) with 128 in HT.
  pose proof (round_half_even_near a 45 ltac:(lia)) as Hr.
  apply round_half_even_unique; [lia |].
  set (r := round_half_even a 45) in *.
  set (T := 2 ^ E) in *.
  assert (Hx : -22 <= a - r * 45 <= 22) by lia.
  assert (Hy : 45 * (b - r * T) = (45 * b - a * T) + T * (a - r * 45)) by ring.
  assert (Hz : -22 * T <= T * (a - r * 45) <= 22 * T) by nia.
  lia.
Qed.

(** *** Integers as binary64 *)

Lemma pos_iter_xO (m d : positive) :
  Zpos (Pos.iter xO m d) = Zpos m * 2 ^ Zpos d.
Proof.
  induction d as [| d IH] using Pos.peano_ind.
  - cbn. lia.
  - rewrite Pos.iter_succ, Pos2Z.inj_xO, IH, Pos2Z.inj_succ.
    rewrite Z.pow_succ_r by lia. lia.
Qed.

Lemma digits2_pos_iter_xO (m d : positive) :
  Zpos (digits2_pos (Pos.iter xO m d)) = Zpos (digits2_pos m) + Zpos d.
Proof.
  induction d as [| d IH] using Pos.peano_ind.
  - cbn. lia.
  - rewrite Pos.iter_succ. cbn [digits2_pos]. lia.
Qed.

Lemma of_Z_in_range (z : Z) : in_range (of_Z z).
Proof.
  unfold of_Z, binary_normalize, binary_round.
  destruct z as [| p | p]; cbn [in_range]; trivial.
  - destruct (shl_align p 0 _) as [mz ez].
    apply binary_round_aux_in_range. lia.
  - destruct (shl_align p 0 _) as [mz ez].
    apply binary_round_aux_in_range. lia.
Qed.

(** A mantissa of exactly 53 digits with an exponent in range is kept as
    it is. *)
Lemma binary_round_aux_exact (sx : bool) (m : positive) (e : Z) :
  Zpos (digits2_pos m) = 53 → -1074 <= e <= 971 →
  binary_round_aux prec emax sx (Zpos m) e loc_Exact = S754_finite sx m e.
Proof.
  intros Hd He. unfold binary_round_aux, shr_fexp.
  cbn [Zdigits2]. rewrite Hd, fexp64_eq.
  replace (Z.max (53 + e - 53) (-1074) - e) with 0 by lia.
  cbn [shr shr_record_of_loc loc_of_shr_record round_nearest_even shr_m Zdigits2].
  rewrite Hd, fexp64_eq.
  replace (Z.max (53 + e - 53) (-1074) - e) with 0 by lia.
  cbn [shr shr_record_of_loc shr_m].
  replace (e <=? emax - prec) with true
    by (symmetry; apply Z.leb_le; unfold emax, prec; lia).
  reflexivity.
Qed.

(** An integer of at most 53 bits is represented exactly: the mantissa is
    the integer shifted left to 53 digits. *)
Lemma binary_round_small (sx : bool) (p : positive) :
  Zpos (digits2_pos p) <= 53 →
  ∃ m, binary_round prec emax sx p 0
         = S754_finite sx m (Zpos (digits2_pos p) - 53) ∧
       Zpos m = Zpos p * 2 ^ (53 - Zpos (digits2_pos p)) ∧
       Zpos (digits2_pos m) = 53.
Proof.
  intros HD. unfold binary_round, shl_align.
  rewrite Z.add_0_r, fexp64_eq.
  replace (Z.max (Zpos (digits2_pos p) - 53) (-1074))
    with (Zpos (digits2_pos p) - 53) by lia.
  destruct (Zpos (digits2_pos p) - 53 - 0) as [| k | k] eqn:Hk.
  - exists p. replace (Zpos (digits2_pos p) - 53) with 0 by lia.
    split; [apply binary_round_aux_exact; lia |].
    split; [| lia].
    replace (53 - Zpos (digits2_pos p)) with 0 by lia. lia.
  - lia.
  - exists (Pos.iter xO p k).
    split; [apply binary_round_aux_exact;
            [rewrite digits2_pos_iter_xO |]; lia |].
    split; [| rewrite digits2_pos_iter_xO; lia].
    rewrite pos_iter_xO. do 2 f_equal. lia.
Qed.

(** *** The quotient of an integer by 22.5, rounded *)

(** For an integer [a] of [D <= 48] bits, held exactly in a 53-digit
    mantissa, the binary64 quotient by 22.5 rounds to the same integer as
    the exact quotient [2a / 45]. *)
Lemma round_fdiv_22_5 (sx : bool) (m : positive) (a D : Z) :
  1 <= D <= 48 → 2 ^ (D - 1) <= a < 2 ^ D →
  Zpos m = a * 2 ^ (53 - D) → Zpos (digits2_pos m) = 53 →
  py_round (fdiv (S754_finite sx m (D - 53)) f22_5)
    = Ok (round_half_even (cond_Zopp sx (2 * a)) 45).
Proof.
  intros HD Ha Hm Hdm.
  unfold fdiv, f22_5, SFdiv. fold m22_5.
  destruct (div_core_22_5 m (D - 53))
    as (q & e' & l & sh & -> & He' & Hsh & _ & Hq).
  rewrite Hdm, fexp64_eq in He'.
  assert (He : e' = D - 58) by lia. clear He'. subst e'.
  assert (Hs : sh = 53) by lia. clear Hsh. subst sh.
  (* the exact quotient, scaled: A / 45 with A = a * 2^(59 - D) *)
  set (A := a * 2 ^ (59 - D)).
  assert (HA : Zpos m * 2 ^ 53 = A * 2 ^ 47).
  { subst A. rewrite Hm.
    replace (59 - D) with (53 - D + 6) by lia.
    rewrite Z.pow_add_r by lia. change (2 ^ 53) with (2 ^ 6 * 2 ^ 47). ring. }
  assert (Hq' : q = A / 45).
  { rewrite Hq, HA, m22_5_eq. apply Z.div_mul_cancel_r; lia. }
  clear Hq HA.
  assert (HA0 : 0 < 2 ^ (59 - D)) by (apply Z.pow_pos_nonneg; lia).
  assert (HAlt : A < 2 ^ 59).
  { subst A. replace 59 with (D + (59 - D)) at 2 by lia.
    rewrite Z.pow_add_r by lia. nia. }
  assert (Hq0 : 0 <= q) by (subst q; apply Z.div_pos; subst A; nia).
  assert (Hqb : 45 * q <= A <= 45 * q + 44).
  { pose proof (Z.div_mod A 45 ltac:(lia)).
    pose proof (Z.mod_pos_bound A 45 ltac:(lia)). lia. }
  assert (Hqd : Zdigits2 q <= 54).
  { apply Zdigits2_le; [assumption | lia |].
    change (2 ^ 59) with (32 * 2 ^ 54) in HAlt. lia. }
  destruct (binary_round_aux_spec (xorb sx false) q (D - 58) l Hq0)
    as (e1 & m1 & mr & e2 & mf & He1 & Hm1 & Hmr & He2 & Hmf & ->).
  rewrite fexp64_eq in He1, He2.
  pose proof (Zdigits2_nonneg q) as Hqn.
  assert (Hm10 : 0 <= m1) by (subst m1; apply div_pow2_nonneg; assumption).
  assert (Hm1d : Zdigits2 m1 <= Z.max (Zdigits2 q - (e1 - (D - 58))) 0)
    by (subst m1; apply Zdigits2_shift; lia).
  assert (Hmrd : Zdigits2 mr <= Zdigits2 m1 + 1).
  { destruct Hmr as [-> | ->]; [lia | apply Zdigits2_succ; assumption]. }
  pose proof (Zdigits2_nonneg mr) as Hmrn.
  assert (He2b : e2 <= D - 56) by lia.
  (* the two shifts as powers of two *)
  set (P1 := 2 ^ (e1 - (D - 58))) in *.
  set (P2 := 2 ^ (e2 - e1)) in *.
  set (T := 2 ^ (- e2)).
  assert (HP1 : 0 < P1) by (apply Z.pow_pos_nonneg; lia).
  assert (HP2 : 0 < P2) by (apply Z.pow_pos_nonneg; lia).
  assert (HT : 0 < T) by (apply Z.pow_pos_nonneg; lia).
  assert (HAT : A = 2 * a * T * (P1 * P2)).
  { subst A T P1 P2.
    replace (59 - D) with (1 + - e2 + (e1 - (D - 58)) + (e2 - e1)) by lia.
    rewrite !Z.pow_add_r by lia. change (2 ^ 1) with 2. ring. }
  assert (Hm1b : P1 * m1 <= q <= P1 * m1 + P1 - 1).
  { pose proof (Z.div_mod q P1 ltac:(lia)).
    pose proof (Z.mod_pos_bound q P1 HP1). subst m1. lia. }
  assert (Hmr0 : 0 <= mr) by lia.
  assert (Hmfb : P2 * mf <= mr <= P2 * mf + P2 - 1).
  { pose proof (Z.div_mod mr P2 ltac:(lia)).
    pose proof (Z.mod_pos_bound mr P2 HP2). subst mf. lia. }
  assert (Hmf0 : 0 <= mf) by (subst mf; apply div_pow2_nonneg; assumption).
  assert (Hclose : Z.abs (45 * mf - 2 * a * T) <= 45).
  { assert (Hup : 45 * mf * (P1 * P2) <= A + 45 * (P1 * P2)).
    { assert (P2 * mf * P1 <= (m1 + 1) * P1) by nia.
      assert (45 * ((m1 + 1) * P1) <= A + 45 * P1) by nia.
      assert (45 * P1 <= 45 * (P1 * P2)) by nia.
      nia. }
    assert (Hlo : A - 45 * (P1 * P2) < 45 * mf * (P1 * P2)).
    { assert ((m1 + 1 - P2) * P1 <= P2 * mf * P1) by nia.
      assert (q + 1 <= (m1 + 1) * P1) by nia.
      nia. }
    rewrite HAT in Hup, Hlo.
    assert (0 < P1 * P2) by nia.
    assert (45 * mf <= 2 * a * T + 45) by nia.
    assert (2 * a * T - 45 < 45 * mf) by nia.
    lia. }
  assert (HT7 : 2 ^ 7 <= T) by (apply Z.pow_le_mono_r; lia).
  change (2 ^ 7) with 128 in HT7.
  assert (Ha1 : 1 <= a).
  { assert (0 < 2 ^ (D - 1)) by (apply Z.pow_pos_nonneg; lia). lia. }
  destruct mf as [| mfp | mfp]; [nia | | lia].
  replace (e2 <=? 971) with true by (symmetry; apply Z.leb_le; lia).
  rewrite xorb_false_r. cbn [py_round]. f_equal.
  unfold num, den.
  rewrite (Z.max_r e2 0), (Z.max_l (- e2) 0), Z.pow_0_r, Z.mul_1_r by lia.
  fold T. apply round_near_45; [lia |].
  destruct sx; cbn [cond_Zopp]; fold T; lia.
Qed.

End Binary64Facts.

(** ** The direction encoder *)

Import Binary64Facts.

Lemma sector_width :
  py_truediv (VFloat f360) (of_Z len_dirs) = Ok f22_5.
Proof. reflexivity. Qed.

Lemma degrees_to_cardinal_unfold (d : pyval) :
  degrees_to_cardinal d =
    (q ← py_truediv d f22_5; ix ← py_round q; py_list_index dirs (ix mod 16)).
Proof. unfold degrees_to_cardinal. rewrite sector_width. reflexivity. Qed.

(** Indexing [dirs] with a number in 0..15 succeeds. *)
Lemma dirs_index (i : Z) :
  0 <= i < 16 →
  ∃ l, dirs !! Z.to_nat i = Some l ∧ py_list_index dirs i = Ok l ∧ l ∈ dirs.
Proof.
  intros Hi. unfold py_list_index.
  change (Z.of_nat (length dirs)) with 16.
  replace (i <? 0) with false by (symmetry; apply Z.ltb_ge; lia).
  replace (0 <=? i) with true by (symmetry; apply Z.leb_le; lia).
  replace (i <? 16) with true by (symmetry; apply Z.ltb_lt; lia).
  cbn [andb].
  destruct (lookup_lt_is_Some_2 dirs (Z.to_nat i)) as [l Hl].
  { change (length dirs) with 16%nat. lia. }
  exists l. rewrite Hl. repeat split.
  apply list_elem_of_lookup. eauto.
Qed.

(** A finite number converts to a finite float below [2^1024]. *)
Lemma finite_number_float (d : pyval) :
  finite_number d →
  ∃ x, as_float "/" d = Ok x ∧ is_finite x = true ∧ in_range x.
Proof.
  destruct d as [| b | z | x | | |]; cbn [finite_number]; try tauto.
  - intros _. destruct b; eexists; (split; [reflexivity |]); split;
      (reflexivity || (vm_compute; discriminate)).
  - intros Hf. exists (of_Z z). cbn [as_float]. unfold float_of_int.
    rewrite Hf. auto using of_Z_in_range.
  - intros [Hv Hf]. exists x. auto using valid_in_range.
Qed.

(** A finite number has a sector: the quotient by 22.5 is finite, so
    [round] returns, and the index modulo 16 is in range. *)
Lemma finite_number_sector (d : pyval) :
  finite_number d →
  ∃ x q ix l,
    as_float "/" d = Ok x ∧ is_finite x = true ∧
    q = fdiv x f22_5 ∧ py_truediv d f22_5 = Ok q ∧ py_round q = Ok ix ∧
    dirs !! Z.to_nat (ix mod 16) = Some l ∧ l ∈ dirs ∧
    degrees_to_cardinal d = Ok l.
Proof.
  intros Hd.
  destruct (finite_number_float d Hd) as (x & Hx & Hfin & Hr).
  pose proof (fdiv_22_5_finite x Hr Hfin) as Hq.
  assert (Hround : ∃ ix, py_round (fdiv x f22_5) = Ok ix).
  { destruct (fdiv x f22_5); try discriminate; cbn; eauto. }
  destruct Hround as [ix Hix].
  destruct (dirs_index (ix mod 16)) as (l & Hl & Hidx & Hin).
  { apply Z.mod_pos_bound. lia. }
  exists x, (fdiv x f22_5), ix, l.
  assert (Hdiv : py_truediv d f22_5 = Ok (fdiv x f22_5)).
  { unfold py_truediv. rewrite Hx. reflexivity. }
  repeat split; try assumption.
  rewrite degrees_to_cardinal_unfold, Hdiv. cbn. rewrite Hix. cbn. assumption.
Qed.

(** On integers below [2^48] in magnitude the encoder computes with the
    exact quotient [2d / 45]. *)
Lemma degrees_to_cardinal_int (z : Z) :
  Z.abs z < 2 ^ 48 →
  degrees_to_cardinal (VInt z)
    = py_list_index dirs (round_half_even (2 * z) 45 mod 16).
Proof.
  intros Hz. rewrite degrees_to_cardinal_unfold.
  unfold py_truediv. cbn [as_float]. unfold float_of_int, of_Z, binary_normalize.
  destruct z as [| p | p].
  - reflexivity.
  - pose proof (digits2_pos_bounds p) as Hb.
    assert (HD : Zpos (digits2_pos p) <= 48)
      by (apply (Zdigits2_le (Zpos p)); lia).
    destruct (binary_round_small false p ltac:(lia)) as (m & -> & Hm & Hdm).
    cbn [is_finite mbind result_bind is_zero f22_5].
    change (S754_finite false 6333186975989760 (-48)) with f22_5.
    rewrite (round_fdiv_22_5 false m (Zpos p) (Zpos (digits2_pos p)));
      [reflexivity | lia | lia | assumption | assumption].
  - pose proof (digits2_pos_bounds p) as Hb.
    assert (HD : Zpos (digits2_pos p) <= 48)
      by (apply (Zdigits2_le (Zpos p)); lia).
    destruct (binary_round_small true p ltac:(lia)) as (m & -> & Hm & Hdm).
    cbn [is_finite mbind result_bind is_zero f22_5].
    change (S754_finite false 6333186975989760 (-48)) with f22_5.
    rewrite (round_fdiv_22_5 true m (Zpos p) (Zpos (digits2_pos p)));
      [reflexivity | lia | lia | assumption | assumption].
Qed.

(** An integer of at most 53 bits converts to a finite float, so the [int]
    and the [float] that holds it are encoded alike. *)
Lemma of_Z_small_finite (z : Z) : Z.abs z < 2 ^ 53 → is_finite (of_Z z) = true.
Proof.
  intros Hz. unfold of_Z, binary_normalize.
  destruct z as [| p | p]; [reflexivity | |].
  - destruct (binary_round_small false p) as (m & -> & _); [| reflexivity].
    apply (Zdigits2_le (Zpos p)); lia.
  - destruct (binary_round_small true p) as (m & -> & _); [| reflexivity].
    apply (Zdigits2_le (Zpos p)); lia.
Qed.

(** Every [int] below [2^1023] in magnitude converts to a finite float. *)
Lemma int_finite_number (z : Z) : Z.abs z < 2 ^ 1023 → finite_number (VInt z).
Proof.
  intros Hz. cbn [finite_number]. unfold of_Z, binary_normalize, binary_round.
  destruct z as [| p | p]; [reflexivity | |].
  - destruct (shl_align p 0 _) as [mz ez] eqn:Hal.
    unfold shl_align in Hal. rewrite Z.add_0_r, Z.sub_0_r, fexp64_eq in Hal.
    pose proof (Zdigits2_le (Zpos p) 1023 ltac:(lia) ltac:(lia) ltac:(lia)) as HD.
    cbn [Zdigits2] in HD.
    destruct (Z.max (Zpos (digits2_pos p) - 53) (-1074)) as [| k | k] eqn:Hk;
      injection Hal as <- <-;
      apply binary_round_aux_finite; cbn [Zdigits2];
      rewrite ?digits2_pos_iter_xO; lia.
  - destruct (shl_align p 0 _) as [mz ez] eqn:Hal.
    unfold shl_align in Hal. rewrite Z.add_0_r, Z.sub_0_r, fexp64_eq in Hal.
    pose proof (Zdigits2_le (Zpos p) 1023 ltac:(lia) ltac:(lia) ltac:(lia)) as HD.
    cbn [Zdigits2] in HD.
    destruct (Z.max (Zpos (digits2_pos p) - 53) (-1074)) as [| k | k] eqn:Hk;
      injection Hal as <- <-;
      apply binary_round_aux_finite; cbn [Zdigits2];
      rewrite ?digits2_pos_iter_xO; lia.
Qed.

Lemma degrees_to_cardinal_float_of_int (z : Z) :
  Z.abs z < 2 ^ 53 →
  degrees_to_cardinal (VFloat (of_Z z)) = degrees_to_cardinal (VInt z).
Proof.
  intros Hz. rewrite !degrees_to_cardinal_unfold.
  unfold py_truediv. cbn [as_float]. unfold float_of_int.
  rewrite of_Z_small_finite by assumption. reflexivity.
Qed.

Example cardinal_0 : degrees_to_cardinal (VInt 0) = Ok "N".
Proof. reflexivity. Qed.

Example cardinal_180 : degrees_to_cardinal (VInt 180) = Ok "S".
Proof. reflexivity. Qed.

Example cardinal_45 : degrees_to_cardinal (VInt 45) = Ok "NE".
Proof. reflexivity. Qed.

(** -22.5 degrees: the rounded quotient is -1, and -1 modulo 16 is 15. *)
Example cardinal_minus_22_5 :
  degrees_to_cardinal (VFloat (S754_finite true 6333186975989760 (-48)))
    = Ok "NNW".
Proof. reflexivity. Qed.

(** 11.25 and 33.75 degrees are halfway between two sectors: ties go to the
    even index. *)
Example cardinal_11_25 :
  degrees_to_cardinal (VFloat (S754_finite false 6333186975989760 (-49)))
    = Ok "N".
Proof. reflexivity. Qed.

Example cardinal_33_75 :
  degrees_to_cardinal (VFloat (S754_finite false 4749890231992320 (-47)))
    = Ok "NE".
Proof. reflexivity. Qed.

(** An [int] beyond the binary64 range does not convert: [d / 22.5] raises. *)
Example cardinal_huge_int :
  degrees_to_cardinal (VInt (2 ^ 1024))
    = Raise (PyError OverflowError "int too large to convert to float").
Proof. reflexivity. Qed.






(** When the sum [d + 360] is itself computed in binary64 the property can
    fail near a sector boundary: 11.250000000000002 + 360. is 371.25. *)
Example cardinal_rounded_sum :
  SFadd prec emax (S754_finite false 6333186975989761 (-49)) f360
    = S754_finite false 6531099068989440 (-44) ∧
  degrees_to_cardinal (VFloat (S754_finite false 6333186975989761 (-49)))
    = Ok "NNE" ∧
  degrees_to_cardinal (VFloat (S754_finite false 6531099068989440 (-44)))
    = Ok "N".
Proof. repeat split; reflexivity. Qed.



(** ** The weather fetcher *)

(** Inverting one [bind] of a successful computation. *)
Lemma bind_Ok {A B} (m : result A) (k : A → result B) (b : B) :
  m ≫= k = Ok b → ∃ a, m = Ok a ∧ k a = Ok b.
Proof. destruct m as [a | e]; cbn; [eauto | discriminate]. Qed.

Ltac invert_binds :=
  repeat match goal with
    | H : _ ≫= _ = Ok _ |- _ =>
        apply bind_Ok in H; destruct H as (? & ? & H)
    | H : Ok _ = Ok _ |- _ => injection H as H
    end.

(** A successful read yields exactly the seven attributes; the gust speed
    is a float and the wind direction a string produced by the encoder. *)
Lemma read_weather_Ok (r : response) (wd : gmap string pyval) :
  read_weather r = Ok wd →
  ∃ data min_temp max_temp v gust humidity pressure temp deg wind_dir,
    body r = inl data ∧
    gust_or_speed data = Ok v ∧ py_mul v f3_6 = Ok gust ∧
    degrees_to_cardinal deg = Ok wind_dir ∧
    wd = <["MinTemp" := min_temp]> (<["MaxTemp" := max_temp]>
         (<["WindGustSpeed" := VFloat gust]> (<["Humidity" := humidity]>
         (<["Pressure" := pressure]> (<["Temp" := temp]>
         (<["WindGustDir" := VStr wind_dir]> ∅)))))).
Proof.
  unfold read_weather. intros H. invert_binds. subst wd.
  match goal with
  | Hj : response_json r = Ok ?d |- _ =>
      unfold response_json in Hj; destruct (body r) as [d' | c] eqn:Hb;
      [injection Hj as -> | discriminate]
  end.
  repeat eexists; eauto.
Qed.

Lemma fetch_success (requests_get : request → http_outcome)
    (city api_key : string) (wd : gmap string pyval) (m : option string) :
  fst (fetch_weather_data requests_get city api_key) = (Some wd, m) →
  m = None ∧ str_truthy api_key = true ∧ str_truthy city = true ∧
  ∃ r, requests_get (weather_request city api_key) = Responded r ∧
       read_weather r = Ok wd.
Proof.
  unfold fetch_weather_data, try_block.
  destruct (str_truthy api_key); cbn [negb]; [| discriminate].
  destruct (str_truthy city); cbn [negb]; [| discriminate].
  destruct (requests_get (weather_request city api_key)) as [r | msg];
    [| discriminate].
  destruct (read_weather r) as [wd' | e] eqn:Hr; cbn; [| discriminate].
  intros [= -> <-]. eauto 10.
Qed.

Lemma prefix_app (s t : string) : String.prefix s (s +:+ t) = true.
Proof.
  induction s as [| c s IH]; [destruct t; reflexivity |].
  change (String c s +:+ t) with (String c (s +:+ t)). cbn [String.prefix].
  destruct (Ascii.ascii_dec c c); [assumption | congruence].
Qed.

Lemma str_contains_here (s t : string) :
  String.prefix s t = true → str_contains s t = true.
Proof. intros H. destruct t; cbn [str_contains]; rewrite H; reflexivity. Qed.

(** A string occurs in every text built around it. *)
Lemma str_contains_app (s a b : string) :
  str_contains s (a +:+ s +:+ b) = true.
Proof.
  induction a as [| c a IH].
  - change (EmptyString +:+ s +:+ b) with (s +:+ b).
    apply str_contains_here, prefix_app.
  - change (String c a +:+ s +:+ b) with (String c (a +:+ s +:+ b)).
    cbn [str_contains]. rewrite IH. apply orb_true_r.
Qed.

Lemma on_exception_truthy (city : string) (e : exn) :
  str_truthy (on_exception city e) = true.
Proof.
  destruct e as [r m | m | c m]; cbn; try reflexivity.
  destruct (status_code r =? 401); [reflexivity |].
  destruct (status_code r =? 404); reflexivity.
Qed.

(** C5, as stated, fails: with both arguments empty the call reports the
    missing key, not the missing city; the key is tested first. *)
Lemma fetch_empty_city_and_key :
  fetch_weather_data (λ _, Failed "unreachable") EmptyString EmptyString
    = ((None, Some msg_no_key), []) ∧
  msg_no_key ≠ msg_no_city.
Proof. split; [reflexivity | discriminate]. Qed.

(** C5, amended. An empty credential is reported as a missing key whatever
    the city; an empty city with a non-empty credential is reported as a
    missing city; in both cases no request is sent. *)
Theorem fetch_preconditions (requests_get : request → http_outcome)
    (city api_key : string) (c : Ascii.ascii) :
  fetch_weather_data requests_get city EmptyString
    = ((None, Some msg_no_key), []) ∧
  fetch_weather_data requests_get EmptyString (String c api_key)
    = ((None, Some msg_no_city), []).
Proof. split; reflexivity. Qed.

(** C9. The fetcher always returns: either the observation with no message,
    or no observation with a message; the message is a non-empty string and
    the observation a non-empty dictionary, so the truth value of the
    message alone tells the two apart. *)
Theorem fetch_one_component (requests_get : request → http_outcome)
    (city api_key : string) :
  (∃ wd, fst (fetch_weather_data requests_get city api_key) = (Some wd, None)
         ∧ wd ≠ ∅) ∨
  (∃ message,
     fst (fetch_weather_data requests_get city api_key) = (None, Some message)
     ∧ str_truthy message = true).
Proof.
  unfold fetch_weather_data, try_block.
  destruct (str_truthy api_key); cbn [negb]; [| right; eauto].
  destruct (str_truthy city); cbn [negb]; [| right; eauto].
  destruct (requests_get (weather_request city api_key)) as [r | msg].
  - destruct (read_weather r) as [wd | e] eqn:Hr; cbn [fst].
    + left. exists wd. split; [reflexivity |].
      destruct (read_weather_Ok r wd Hr)
        as (? & ? & ? & ? & ? & ? & ? & ? & ? & ? & _ & _ & _ & _ & ->).
      apply insert_non_empty.
    + right. eauto using on_exception_truthy.
  - right. cbn. eauto.
Qed.

Lemma append_assoc (s t u : string) : (s +:+ t) +:+ u = s +:+ t +:+ u.
Proof.
  induction s as [| c s IH]; [reflexivity |].
  change ((String c s +:+ t) +:+ u) with (String c ((s +:+ t) +:+ u)).
  rewrite IH. reflexivity.
Qed.

(** The text of an [HTTPError] carries the status code and the reason. *)
Lemma http_error_msg_carries (kind : string) (r : response) :
  str_contains (pretty (status_code r)) (http_error_msg kind r) = true ∧
  str_contains (reason r) (http_error_msg kind r) = true.
Proof.
  unfold http_error_msg. split.
  - apply (str_contains_app _ EmptyString).
  - rewrite <- (append_assoc " " kind), <- (append_assoc (" " +:+ kind)).
    rewrite <- (append_assoc (pretty (status_code r))).
    apply str_contains_app.
Qed.

(** C6, as stated, fails: a 302 response is not 2xx, yet it is no error for
    the fetcher, which reads the observation from its body; and a 304
    response without a JSON body is reported as an unexpected error, not as
    an HTTP error. *)
Lemma fetch_redirect_is_no_http_error :
  fst (fetch_weather_data (always (chandigarh_response 302 "Found"))
         "Chandigarh" "k")
    = (Some chandigarh_weather, None) ∧
  fst (fetch_weather_data
         (always {| status_code := 304; reason := "Not Modified";
                    url := "http://api.openweathermap.org/data/2.5/weather";
                    body := inr "Expecting value: line 1 column 1 (char 0)" |})
         "Chandigarh" "k")
    = (None, Some "An unexpected error occurred: Expecting value: line 1 column 1 (char 0)").
Proof. split; vm_compute; reflexivity. Qed.

(** C6, amended. For a response with a status in 400..599 the fetcher
    classifies by status: 401 gives the invalid-key message, 404 the
    city-not-found message, which contains the queried city, and any other
    such status the HTTP-error message, which carries the status code and
    the reason. Exactly one request was sent. *)
Theorem fetch_http_error (requests_get : request → http_outcome)
    (city api_key : string) (r : response) :
  str_truthy api_key = true → str_truthy city = true →
  requests_get (weather_request city api_key) = Responded r →
  400 <= status_code r < 600 →
  fetch_weather_data requests_get city api_key
    = ((None,
        Some (if status_code r =? 401 then msg_invalid_key
              else if status_code r =? 404 then msg_city_not_found city
              else "An HTTP error occurred: " +:+
                   http_error_msg
                     (if status_code r <? 500 then "Client" else "Server") r)),
       [weather_request city api_key]) ∧
  str_contains city (msg_city_not_found city) = true ∧
  (∀ kind, str_contains (pretty (status_code r)) (http_error_msg kind r) = true ∧
           str_contains (reason r) (http_error_msg kind r) = true).
Proof.
  intros Hk Hc Hget Hs.
  split; [| split; [apply str_contains_app
                   | intros kind; apply http_error_msg_carries]].
  unfold fetch_weather_data, try_block, read_weather, raise_for_status.
  rewrite Hk, Hc, Hget. cbn [negb].
  destruct (Z.ltb_spec (status_code r) 500).
  - replace (400 <=? status_code r) with true by (symmetry; apply Z.leb_le; lia).
    reflexivity.
  - replace (500 <=? status_code r) with true by (symmetry; apply Z.leb_le; lia).
    replace (status_code r <? 600) with true by (symmetry; apply Z.ltb_lt; lia).
    rewrite andb_false_r. reflexivity.
Qed.

Lemma fetch_http_error_witness :
  fetch_weather_data
    (always (chandigarh_response 404 "Not Found")) "Atlantis" "k"
    = ((None, Some "City 'Atlantis' not found. Please check the spelling."),
       [weather_request "Atlantis" "k"]).
Proof.
  refine (proj1 (fetch_http_error (always (chandigarh_response 404 "Not Found"))
           "Atlantis" "k" (chandigarh_response 404 "Not Found") _ _ _ _));
    [reflexivity | reflexivity | reflexivity | cbn; lia].
Defined.

(** The nested [get] calls of line 59 select what the specification says. *)
Lemma gust_or_speed_spec (data v : pyval) :
  gust_or_speed data = Ok v → v = spec_gust_choice data.
Proof.
  unfold gust_or_speed, spec_gust_choice.
  destruct data as [| | | | | | d]; try discriminate. cbn.
  destruct (dict_lookup "wind" d) as [[| | | | | | w] |]; cbn;
    try discriminate.
  - destruct (dict_lookup "gust" w); cbn; congruence.
  - congruence.
Qed.

(** C7. Whenever the fetch succeeds, the [WindGustSpeed] of the observation
    is the product, in binary64, of 3.6 and the provider's gust if present,
    else its wind speed if present, else 0. A gust of 10 (as an [int] or a
    [float]) gives exactly 36.0. *)
Theorem gust_speed_conversion (requests_get : request → http_outcome)
    (city api_key : string) (wd : gmap string pyval) (r : response)
    (data : pyval) :
  fst (fetch_weather_data requests_get city api_key) = (Some wd, None) →
  requests_get (weather_request city api_key) = Responded r →
  body r = inl data →
  (∃ x, as_float "*" (spec_gust_choice data) = Ok x ∧
        wd !! "WindGustSpeed" = Some (VFloat (fmul x f3_6))) ∧
  (spec_gust_choice data = VInt 10 ∨ spec_gust_choice data = VFloat f10 →
   wd !! "WindGustSpeed" = Some (VFloat f36)).
Proof.
  intros Hfetch Hget Hbody.
  destruct (fetch_success _ _ _ _ _ Hfetch) as (_ & _ & _ & r' & Hget' & Hread).
  rewrite Hget in Hget'. injection Hget' as <-.
  destruct (read_weather_Ok r wd Hread)
    as (data' & tmin & tmax & v & gust & hum & pres & temp & deg & wdir &
        Hbody' & Hv & Hmul & _ & ->).
  rewrite Hbody in Hbody'. injection Hbody' as <-.
  apply gust_or_speed_spec in Hv. subst v.
  unfold py_mul in Hmul. apply bind_Ok in Hmul.
  destruct Hmul as (x & Hx & [= <-]).
  assert (Hlook : (<["MinTemp":=tmin]> (<["MaxTemp":=tmax]>
            (<["WindGustSpeed":=VFloat (fmul x f3_6)]> (<["Humidity":=hum]>
            (<["Pressure":=pres]> (<["Temp":=temp]>
            (<["WindGustDir":=VStr wdir]> (∅ : gmap string pyval))))))))
            !! "WindGustSpeed" = Some (VFloat (fmul x f3_6)))
    by (by simplify_map_eq).
  split.
  - exists x. split; [assumption | apply Hlook].
  - rewrite Hlook. intros [Hg | Hg]; rewrite Hg in Hx;
      injection Hx as <-; reflexivity.
Qed.

Lemma gust_speed_conversion_witness :
  (∃ x, as_float "*" (spec_gust_choice chandigarh_payload) = Ok x ∧
        chandigarh_weather !! "WindGustSpeed" = Some (VFloat (fmul x f3_6))).
Proof.
  refine (proj1 (gust_speed_conversion
            (always (chandigarh_response 200 "OK")) "Chandigarh" "k"
            chandigarh_weather (chandigarh_response 200 "OK")
            chandigarh_payload _ _ _)).
  - vm_compute. reflexivity.
  - reflexivity.
  - reflexivity.
Defined.

(** A gust of 10 m/s in the payload: 36.0 km/h in the observation. *)
Example gust_10_is_36 :
  ∃ wd,
    read_weather
      {| status_code := 200; reason := "OK"; url := "u";
         body := inl (VDict
           [("main", VDict [("temp", VInt 25); ("temp_min", VInt 20);
                            ("temp_max", VInt 30); ("humidity", VInt 60);
                            ("pressure", VInt 1012)]);
            ("wind", VDict [("speed", VInt 5); ("gust", VInt 10);
                            ("deg", VInt 90)])]) |} = Ok wd ∧
    wd !! "WindGustSpeed" = Some (VFloat f36).
Proof. eexists. split; vm_compute; reflexivity. Qed.

(** ** The feature builder *)

Lemma one_hot_loop_Ok (w : string) (features : list string)
    (m : gmap string pyval) :
  ∃ m', one_hot_loop (VStr w) features m = Ok m'.
Proof.
  revert m. induction features as [| f fs IH]; intros m; cbn; [eauto |].
  destruct (str_contains "WindGustDir_" f); cbn; apply IH.
Qed.

(** After the loop, a marker feature of the list holds 1 or 0 according to
    [endswith]; every other key is as before. *)
Lemma one_hot_loop_lookup (w : string) (features : list string)
    (m m' : gmap string pyval) (c : string) :
  one_hot_loop (VStr w) features m = Ok m' →
  m' !! c =
    if decide (c ∈ features ∧ str_contains "WindGustDir_" c = true)
    then Some (VInt (if str_endswith c w then 1 else 0))
    else m !! c.
Proof.
  revert m. induction features as [| f fs IH]; intros m; cbn.
  - intros [= <-]. case_decide as H; [| reflexivity].
    destruct H as [H _]. by apply elem_of_nil in H.
  - destruct (str_contains "WindGustDir_" f) eqn:Hf; cbn; intros Hloop;
      rewrite (IH _ Hloop); clear IH Hloop.
    + destruct (decide (c = f)) as [-> | Hne].
      * rewrite lookup_insert_eq.
        rewrite (decide_True (P := f ∈ f :: fs ∧ _)) by (split; [left | done]).
        by case_decide.
      * rewrite lookup_insert_ne by done.
        apply decide_ext. rewrite elem_of_cons. tauto.
    + apply decide_ext. rewrite elem_of_cons. split.
      * tauto.
      * intros [[-> | Hin] Hc]; [congruence | done].
Qed.

(** The selected row names the requested columns, in order, each with the
    value the dictionary holds for it. *)
Lemma select_columns_Ok (input_data : gmap string pyval)
    (columns : list string) (df : frame) :
  select_columns input_data columns = Ok df →
  Forall2 (λ c p, ∃ v, p = (c, v) ∧ input_data !! c = Some v) columns df.
Proof.
  unfold select_columns.
  destruct (mapM _ columns) as [row |] eqn:Hrow; [| discriminate].
  intros [= <-]. apply mapM_Some in Hrow.
  eapply Forall2_impl; [exact Hrow |].
  intros c p Hp. cbn in Hp.
  destruct (input_data !! c) as [v |]; [| discriminate].
  injection Hp as <-. eauto.
Qed.

Lemma select_columns_missing (input_data : gmap string pyval)
    (columns : list string) (c : string) :
  c ∈ columns → input_data !! c = None →
  ∃ message, select_columns input_data columns = Raise (PyError KeyError message).
Proof.
  intros Hin Hnone. unfold select_columns.
  destruct (mapM _ columns) as [row |] eqn:Hrow; [| eauto].
  exfalso.
  assert (His : is_Some (mapM (λ c, pair c <$> input_data !! c) columns))
    by (rewrite Hrow; eauto).
  rewrite mapM_is_Some, Forall_forall in His.
  specialize (His c Hin). cbn in His. rewrite Hnone in His.
  by destruct His.
Qed.

Lemma build_input_Ok (features : list string) (wd : gmap string pyval)
    (df : frame) :
  build_input features wd = Ok df →
  ∃ wind_dir m',
    wd !! "WindGustDir" = Some wind_dir ∧
    one_hot_loop wind_dir features (delete "WindGustDir" wd) = Ok m' ∧
    select_columns m' features = Ok df.
Proof.
  unfold build_input, dict_pop.
  destruct (wd !! "WindGustDir") as [wind_dir |]; [| discriminate]. cbn.
  destruct (one_hot_loop wind_dir features _) as [m' |] eqn:Hloop;
    [| discriminate]. cbn.
  eauto.
Qed.

(** C8. When the build step succeeds, the columns of the frame handed to
    the classifier are the model's features, in the model's order; the two
    classifier calls receive that very frame. *)
Theorem build_input_order (model_features : list string)
    (weather_data : gmap string pyval) (input_df : frame) :
  build_input model_features weather_data = Ok input_df →
  input_df.*1 = model_features ∧
  ∀ model_predict model_predict_proba,
    on_predict model_features model_predict model_predict_proba weather_data
    = (prediction ← model_predict input_df;
       probability ← model_predict_proba input_df;
       Ok (rain_card (prediction =? 1) probability)).
Proof.
  intros Hbuild. split.
  - destruct (build_input_Ok _ _ _ Hbuild) as (w & m' & _ & _ & Hsel).
    apply select_columns_Ok in Hsel. clear Hbuild.
    induction Hsel as [| c p cs df (v & -> & _) _ IH]; [reflexivity |].
    rewrite fmap_cons, IH. reflexivity.
  - intros mp mpp. unfold on_predict. rewrite Hbuild. reflexivity.
Qed.

Lemma build_input_order_witness :
  ∃ input_df,
    build_input full_features chandigarh_weather = Ok input_df ∧
    input_df.*1 = full_features.
Proof.
  eexists. split; [vm_compute; reflexivity |].
  refine (proj1 (build_input_order full_features chandigarh_weather _ _)).
  vm_compute. reflexivity.
Defined.

(** The sum of the marker columns of the built frame is the number of
    marker features that end with the wind direction. *)
Lemma build_input_one_hot_sum (features : list string)
    (wd : gmap string pyval) (w : string) (df : frame) :
  wd !! "WindGustDir" = Some (VStr w) →
  build_input features wd = Ok df →
  one_hot_sum df = marker_count w features.
Proof.
  intros Hw Hbuild.
  destruct (build_input_Ok _ _ _ Hbuild) as (w' & m' & Hw' & Hloop & Hsel).
  rewrite Hw in Hw'. injection Hw' as <-.
  apply select_columns_Ok in Hsel. clear Hbuild.
  assert (Hsub : ∀ c, c ∈ features → c ∈ features) by auto.
  revert Hsub Hsel. generalize features at 1 3 4 as fs. intros fs Hsub Hsel.
  induction Hsel as [| c p cs df' (v & -> & Hv) _ IH]; [reflexivity |].
  cbn [one_hot_sum marker_count foldr].
  fold (one_hot_sum df') (marker_count w cs).
  rewrite IH by (intros c' Hc'; apply Hsub; by right).
  destruct (str_contains "WindGustDir_" c) eqn:Hc; [| reflexivity].
  rewrite (one_hot_loop_lookup _ _ _ _ c Hloop) in Hv.
  rewrite decide_True in Hv by (split; [apply Hsub; left | done]).
  injection Hv as <-. reflexivity.
Qed.

(** The number of marker columns set to 1, for each of the 16 labels in
    turn: only the labels that are a suffix of no other label give 1. *)
Lemma marker_count_table :
  (λ w, marker_count w full_features) <$> dirs
    = [1; 1; 3; 1; 7; 1; 3; 1; 1; 1; 3; 1; 7; 1; 3; 1].
Proof. reflexivity. Qed.

(** The frame built in the end-to-end scenario of the specification. *)
Example build_input_chandigarh :
  build_input full_features chandigarh_weather
    = Ok [("MinTemp", VInt 20); ("MaxTemp", VInt 30);
          ("WindGustSpeed", VFloat f18); ("Humidity", VInt 60);
          ("Pressure", VInt 1012); ("Temp", VInt 25);
          ("WindGustDir_N", VInt 0); ("WindGustDir_NNE", VInt 1);
          ("WindGustDir_NE", VInt 1); ("WindGustDir_ENE", VInt 1);
          ("WindGustDir_E", VInt 1); ("WindGustDir_ESE", VInt 1);
          ("WindGustDir_SE", VInt 1); ("WindGustDir_SSE", VInt 1);
          ("WindGustDir_S", VInt 0); ("WindGustDir_SSW", VInt 0);
          ("WindGustDir_SW", VInt 0); ("WindGustDir_WSW", VInt 0);
          ("WindGustDir_W", VInt 0); ("WindGustDir_WNW", VInt 0);
          ("WindGustDir_NW", VInt 0); ("WindGustDir_NNW", VInt 0)].
Proof. vm_compute. reflexivity. Qed.

(** C1, what the code does. For an observation with wind direction E and
    the model features with one marker column per label, the built frame
    has seven marker columns at 1, not one: [endswith] also matches NNE, NE,
    ENE, ESE, SE and SSE. *)
Theorem one_hot_sum_wind_east (weather_data : gmap string pyval)
    (input_df : frame) :
  weather_data !! "WindGustDir" = Some (VStr "E") →
  build_input full_features weather_data = Ok input_df →
  one_hot_sum input_df = 7.
Proof.
  intros Hw Hbuild.
  rewrite (build_input_one_hot_sum _ _ _ _ Hw Hbuild). reflexivity.
Qed.

Lemma one_hot_sum_wind_east_witness :
  ∃ input_df,
    build_input full_features chandigarh_weather = Ok input_df ∧
    one_hot_sum input_df = 7.
Proof.
  eexists. split; [vm_compute; reflexivity |].
  apply (one_hot_sum_wind_east chandigarh_weather);
    vm_compute; reflexivity.
Defined.

(** ** The script *)

(** After a successful fetch the page shows the three metrics. *)
Lemma show_weather_after_fetch (requests_get : request → http_outcome)
    (city api_key : string) (wd : gmap string pyval) :
  fst (fetch_weather_data requests_get city api_key) = (Some wd, None) →
  wd ≠ ∅ ∧
  (∃ w, wd !! "WindGustDir" = Some (VStr w)) ∧
  ∃ temp humidity pressure,
    show_weather city wd = Ok (live_weather city temp humidity pressure).
Proof.
  intros Hfetch.
  destruct (fetch_success _ _ _ _ _ Hfetch) as (_ & _ & _ & r & _ & Hread).
  destruct (read_weather_Ok r wd Hread)
    as (data & tmin & tmax & v & gust & hum & pres & temp & deg & wdir &
        _ & _ & _ & _ & ->).
  split; [apply insert_non_empty |].
  split; [exists wdir; by simplify_map_eq |].
  exists temp, hum, pres. unfold show_weather, dict_item.
  by simplify_map_eq.
Qed.




(** The end-to-end scenario of the specification: wind from the east at
    5 m/s, and a classifier that answers 1 with probability 0.73. *)
Example chandigarh_run :
  main_content (always (chandigarh_response 200 "OK"))
    full_features stub_predict stub_predict_proba "Chandigarh" "k" true
  = {| page := [live_weather "Chandigarh" (VInt 25) (VInt 60) (VInt 1012);
                rain_card true (S754_finite false 6575255455960924 (-53))];
       uncaught := None |}.
Proof. vm_compute. reflexivity. Qed.

(** An error of the fetcher is shown as a message, and the run finishes. *)
Example atlantis_run :
  main_content (always (chandigarh_response 404 "Not Found"))
    full_features stub_predict stub_predict_proba "Atlantis" "k" true
  = {| page := [st_error "City 'Atlantis' not found. Please check the spelling."];
       uncaught := None |}.
Proof. vm_compute. reflexivity. Qed.

(** * Further properties *)

(** ** Further properties of the encoder *)

(** With denominator 45 there are no ties: rounding is a floor. *)
Lemma round_half_even_45 (n : Z) :
  Z.even n = true → round_half_even n 45 = (2 * n + 45) / 90.
Proof.
  intros Hn. apply round_half_even_unique; [lia |].
  pose proof (Z.div_mod (2 * n + 45) 90 ltac:(lia)) as Hdm.
  pose proof (Z.mod_pos_bound (2 * n + 45) 90 ltac:(lia)) as Hm.
  apply Z.even_spec in Hn as [h ->].
  set (r := (2 * (2 * h) + 45) / 90) in *.
  assert ((2 * (2 * h) + 45) mod 90 ≠ 0).
  { intros H0. rewrite H0 in Hdm. lia. }
  lia.
Qed.

(** X1. For an integer number of degrees below [2^48] in magnitude the
    label is found without any rounding error: it is the label at index
    [floor((4 d + 45) / 90) mod 16], so label [i] covers the integers [d]
    with [90 i - 45 <= 4 d < 90 i + 45] (modulo 360). *)
Theorem degrees_to_cardinal_closed_form (d : Z) :
  Z.abs d < 2 ^ 48 →
  ∃ l, dirs !! Z.to_nat (((4 * d + 45) / 90) mod 16) = Some l ∧
       degrees_to_cardinal (VInt d) = Ok l.
Proof.
  intros Hd. rewrite degrees_to_cardinal_int by assumption.
  rewrite round_half_even_45 by (rewrite Z.even_mul; reflexivity).
  replace (2 * (2 * d) + 45) with (4 * d + 45) by ring.
  destruct (dirs_index (((4 * d + 45) / 90) mod 16)) as (l & Hl & Hidx & _).
  { apply Z.mod_pos_bound. lia. }
  eauto.
Qed.

Lemma degrees_to_cardinal_closed_form_witness :
  ∃ l, dirs !! Z.to_nat (((4 * 349 + 45) / 90) mod 16) = Some l ∧
       degrees_to_cardinal (VInt 349) = Ok l.
Proof. apply (degrees_to_cardinal_closed_form 349). reflexivity. Defined.

(** X2. What is no number is refused: [None], a string, a list or a
    dictionary make the division raise [TypeError]; an infinite float makes
    [round] raise [OverflowError] and a NaN makes it raise [ValueError]. *)
Theorem degrees_to_cardinal_rejects (d : pyval) :
  match d with
  | VNone | VStr _ | VList _ | VDict _ =>
      ∃ message, degrees_to_cardinal d = Raise (PyError TypeError message)
  | VFloat (S754_infinity _) =>
      ∃ message, degrees_to_cardinal d = Raise (PyError OverflowError message)
  | VFloat S754_nan =>
      ∃ message, degrees_to_cardinal d = Raise (PyError ValueError message)
  | _ => True
  end.
Proof.
  destruct d as [| b | z | [s | s | | s m e] | s | l | dd]; trivial;
    rewrite degrees_to_cardinal_unfold; cbn; eauto.
Qed.

(** An integer of 1025 bits or more is rounded to an infinity. *)
Lemma binary_round_overflow (sx : bool) (p : positive) :
  2 ^ 1024 <= Zpos p → binary_round prec emax sx p 0 = S754_infinity sx.
Proof.
  intros Hp.
  pose proof (digits2_pos_bounds p) as [Hlo Hhi].
  set (D := Zpos (digits2_pos p)) in *.
  assert (HD : 1025 <= D).
  { destruct (Z.le_gt_cases 1025 D) as [| Hlt]; [assumption | exfalso].
    assert (2 ^ D <= 2 ^ 1024) by (apply Z.pow_le_mono_r; lia). lia. }
  unfold binary_round, shl_align. fold D.
  rewrite Z.add_0_r, fexp64_eq.
  replace (Z.max (D - 53) (-1074) - 0) with (D - 53) by lia.
  destruct (D - 53) as [| k | k] eqn:Hk; try lia.
  destruct (binary_round_aux_spec sx (Zpos p) 0 loc_Exact ltac:(lia))
    as (e1 & m1 & mr & e2 & mf & He1 & Hm1 & Hmr & He2 & Hmf & ->).
  cbn [Zdigits2] in He1. fold D in He1. rewrite fexp64_eq in He1, He2.
  assert (He1' : e1 = D - 53) by lia. clear He1.
  rewrite Z.sub_0_r in Hm1.
  assert (H2 : 0 < 2 ^ e1) by (apply Z.pow_pos_nonneg; lia).
  assert (Hm1lo : 2 ^ 52 <= m1).
  { subst m1. apply Z.div_le_lower_bound; [lia |].
    rewrite <- Z.pow_add_r by lia.
    replace (e1 + 52) with (D - 1) by lia. lia. }
  assert (Hm1hi : m1 < 2 ^ 53).
  { subst m1. apply Z.div_lt_upper_bound; [lia |].
    rewrite <- Z.pow_add_r by lia.
    replace (e1 + 53) with D by lia. lia. }
  assert (Hmrd : Zdigits2 mr <= 54).
  { apply Zdigits2_le; [lia | lia |].
    change (2 ^ 54) with (2 * 2 ^ 53). lia. }
  pose proof (Zdigits2_nonneg mr).
  assert (He21 : 0 <= e2 - e1 <= 1) by lia.
  assert (Hmf0 : 0 < mf).
  { subst mf. apply Z.div_str_pos. split; [apply Z.pow_pos_nonneg; lia |].
    assert (2 ^ (e2 - e1) <= 2 ^ 1) by (apply Z.pow_le_mono_r; lia).
    change (2 ^ 1) with 2 in *. change (2 ^ 52) with 4503599627370496 in *. lia. }
  destruct mf as [| m | m]; try lia.
  replace (e2 <=? 971) with false by (symmetry; apply Z.leb_gt; lia).
  reflexivity.
Qed.

(** X3. An [int] of magnitude [2^1024] or more does not convert to a
    float: the division raises [OverflowError] and no label is returned. *)
Theorem degrees_to_cardinal_int_overflow (d : Z) :
  2 ^ 1024 <= Z.abs d →
  degrees_to_cardinal (VInt d)
    = Raise (PyError OverflowError "int too large to convert to float").
Proof.
  intros Hd. rewrite degrees_to_cardinal_unfold.
  unfold py_truediv. cbn [as_float]. unfold float_of_int, of_Z, binary_normalize.
  destruct d as [| p | p].
  - cbn in Hd. lia.
  - rewrite binary_round_overflow by (cbn in Hd; lia). reflexivity.
  - rewrite binary_round_overflow by (cbn in Hd; lia). reflexivity.
Qed.

Lemma degrees_to_cardinal_int_overflow_witness :
  degrees_to_cardinal (VInt (- 2 ^ 1024))
    = Raise (PyError OverflowError "int too large to convert to float").
Proof.
  apply (degrees_to_cardinal_int_overflow (- 2 ^ 1024)). vm_compute. discriminate.
Defined.

Lemma round_half_even_45_opp (n : Z) :
  round_half_even (- n) 45 = - round_half_even n 45.
Proof.
  pose proof (round_half_even_near n 45 ltac:(lia)) as Hr.
  apply round_half_even_unique; lia.
Qed.

(** X4. Mirror symmetry about north, for integer degrees below [2^48]: if
    [d] gets the label at index [i], then [-d] gets the label at index
    [(-i) mod 16] (NNE and NNW, E and W, ... ; N and S are their own
    mirror images). *)
Theorem degrees_to_cardinal_mirror (d : Z) :
  Z.abs d < 2 ^ 48 →
  ∃ i l l',
    0 <= i < 16 ∧
    dirs !! Z.to_nat i = Some l ∧ degrees_to_cardinal (VInt d) = Ok l ∧
    dirs !! Z.to_nat (mirror_index i) = Some l' ∧
    degrees_to_cardinal (VInt (- d)) = Ok l'.
Proof.
  intros Hd.
  rewrite !degrees_to_cardinal_int by lia.
  replace (2 * - d) with (- (2 * d)) by ring.
  rewrite round_half_even_45_opp.
  set (r := round_half_even (2 * d) 45).
  assert (Hi : 0 <= r mod 16 < 16) by (apply Z.mod_pos_bound; lia).
  destruct (dirs_index (r mod 16) Hi) as (l & Hl & Hidx & _).
  assert (Hm : (- r) mod 16 = mirror_index (r mod 16)).
  { unfold mirror_index.
    rewrite <- (Z.sub_0_l r), Zminus_mod, <- (Z.sub_0_l (r mod 16)).
    reflexivity. }
  rewrite Hm.
  assert (Hi' : 0 <= mirror_index (r mod 16) < 16)
    by (apply Z.mod_pos_bound; lia).
  destruct (dirs_index _ Hi') as (l' & Hl' & Hidx' & _).
  exists (r mod 16), l, l'. auto.
Qed.

Lemma degrees_to_cardinal_mirror_witness :
  ∃ i l l',
    0 <= i < 16 ∧
    dirs !! Z.to_nat i = Some l ∧ degrees_to_cardinal (VInt 70) = Ok l ∧
    dirs !! Z.to_nat (mirror_index i) = Some l' ∧
    degrees_to_cardinal (VInt (- 70)) = Ok l'.
Proof. apply (degrees_to_cardinal_mirror 70). reflexivity. Defined.

(** ** Further properties of the fetcher *)

Lemma raise_for_status_Ok (r : response) :
  ¬ (400 <= status_code r < 600) → raise_for_status r = Ok ().
Proof.
  intros Hs. unfold raise_for_status.
  destruct (Z.leb_spec 400 (status_code r)), (Z.ltb_spec (status_code r) 500),
    (Z.leb_spec 500 (status_code r)), (Z.ltb_spec (status_code r) 600);
    cbn; try reflexivity; lia.
Qed.

Lemma py_list_index_elem {A} (l : list A) (i : Z) (a : A) :
  py_list_index l i = Ok a → a ∈ l.
Proof.
  unfold py_list_index.
  destruct (_ && _); [| discriminate].
  destruct (l !! _) as [a' |] eqn:Hl; [| discriminate].
  intros [= <-]. apply list_elem_of_lookup. eauto.
Qed.

(** Whatever the encoder returns is one of the 16 labels. *)
Lemma degrees_to_cardinal_elem (d : pyval) (l : string) :
  degrees_to_cardinal d = Ok l → l ∈ dirs.
Proof.
  rewrite degrees_to_cardinal_unfold. intros H.
  apply bind_Ok in H as (q & _ & H). apply bind_Ok in H as (ix & _ & H).
  by apply py_list_index_elem in H.
Qed.

(** X5. A failure below HTTP (the request raises: no connection, timeout,
    ...) and a body that is not JSON are both reported as an unexpected
    error that carries the text of the exception; one request was sent. *)
Theorem fetch_unexpected_error (requests_get : request → http_outcome)
    (city api_key complaint : string) :
  str_truthy api_key = true → str_truthy city = true →
  (requests_get (weather_request city api_key) = Failed complaint ∨
   ∃ r, requests_get (weather_request city api_key) = Responded r ∧
        ¬ (400 <= status_code r < 600) ∧ body r = inr complaint) →
  fetch_weather_data requests_get city api_key
    = ((None, Some ("An unexpected error occurred: " +:+ complaint)),
       [weather_request city api_key]).
Proof.
  intros Hk Hc H. unfold fetch_weather_data, try_block.
  rewrite Hk, Hc. cbn [negb].
  destruct H as [-> | (r & -> & Hs & Hb)]; [reflexivity |].
  unfold read_weather, response_json.
  rewrite (raise_for_status_Ok r Hs), Hb. reflexivity.
Qed.

Lemma fetch_unexpected_error_witness :
  fetch_weather_data (λ _, Failed "Connection refused") "Chandigarh" "k"
    = ((None, Some "An unexpected error occurred: Connection refused"),
       [weather_request "Chandigarh" "k"]).
Proof.
  apply (fetch_unexpected_error (λ _, Failed "Connection refused")
           "Chandigarh" "k" "Connection refused");
    [reflexivity | reflexivity | left; reflexivity].
Defined.

(** X6. A JSON object without a ["main"] entry gives no observation: the
    missing key is reported as an unexpected error, nothing is defaulted. *)
Theorem fetch_missing_main (requests_get : request → http_outcome)
    (city api_key : string) (r : response) (d : list (string * pyval)) :
  str_truthy api_key = true → str_truthy city = true →
  requests_get (weather_request city api_key) = Responded r →
  ¬ (400 <= status_code r < 600) →
  body r = inl (VDict d) → dict_lookup "main" d = None →
  fst (fetch_weather_data requests_get city api_key)
    = (None, Some "An unexpected error occurred: 'main'").
Proof.
  intros Hk Hc Hget Hs Hb Hmain. unfold fetch_weather_data, try_block.
  rewrite Hk, Hc, Hget. cbn [negb].
  unfold read_weather, response_json.
  rewrite (raise_for_status_Ok r Hs), Hb. cbn. rewrite Hmain. reflexivity.
Qed.

Lemma fetch_missing_main_witness :
  fst (fetch_weather_data
         (always {| status_code := 200; reason := "OK"; url := "u";
                    body := inl (VDict [("cod", VInt 200)]) |})
         "Chandigarh" "k")
    = (None, Some "An unexpected error occurred: 'main'").
Proof.
  apply (fetch_missing_main _ "Chandigarh" "k"
           {| status_code := 200; reason := "OK"; url := "u";
              body := inl (VDict [("cod", VInt 200)]) |}
           [("cod", VInt 200)]);
    try reflexivity.
  cbn. lia.
Defined.

(** X7. Every observation the fetcher returns has exactly the seven keys;
    its wind direction is a string, one of the 16 labels, and its gust speed
    is a float. *)
Theorem fetch_observation_shape (requests_get : request → http_outcome)
    (city api_key : string) (wd : gmap string pyval) :
  fst (fetch_weather_data requests_get city api_key) = (Some wd, None) →
  dom wd = list_to_set ["MinTemp"; "MaxTemp"; "WindGustSpeed"; "Humidity";
                        "Pressure"; "Temp"; "WindGustDir"] ∧
  (∃ l, wd !! "WindGustDir" = Some (VStr l) ∧ l ∈ dirs) ∧
  (∃ x, wd !! "WindGustSpeed" = Some (VFloat x)).
Proof.
  intros Hfetch.
  destruct (fetch_success _ _ _ _ _ Hfetch) as (_ & _ & _ & r & _ & Hread).
  destruct (read_weather_Ok r wd Hread)
    as (data & tmin & tmax & v & gust & hum & pres & temp & deg & wdir &
        _ & _ & _ & Hdir & ->).
  split; [| split].
  - rewrite !dom_insert_L, dom_empty_L. cbn. set_solver.
  - exists wdir. split; [by simplify_map_eq |].
    by apply degrees_to_cardinal_elem in Hdir.
  - exists gust. by simplify_map_eq.
Qed.

Lemma fetch_observation_shape_witness :
  dom chandigarh_weather
    = list_to_set ["MinTemp"; "MaxTemp"; "WindGustSpeed"; "Humidity";
                   "Pressure"; "Temp"; "WindGustDir"] ∧
  (∃ l, chandigarh_weather !! "WindGustDir" = Some (VStr l) ∧ l ∈ dirs) ∧
  (∃ x, chandigarh_weather !! "WindGustSpeed" = Some (VFloat x)).
Proof.
  apply (fetch_observation_shape (always (chandigarh_response 200 "OK"))
           "Chandigarh" "k" chandigarh_weather).
  vm_compute. reflexivity.
Defined.

Lemma py_getitem_Ok (v : pyval) (k : string) (x : pyval) :
  py_getitem v k = Ok x → ∃ d, v = VDict d ∧ dict_lookup k d = Some x.
Proof.
  destruct v as [| | | | | | d]; cbn; try discriminate.
  destruct (dict_lookup k d) as [y |] eqn:Hy; [| discriminate].
  intros [= <-]. eauto.
Qed.

Lemma py_get_Ok (v : pyval) (k : string) (dflt x : pyval) :
  py_get v k dflt = Ok x → ∃ d, v = VDict d ∧ x = default dflt (dict_lookup k d).
Proof.
  destruct v as [| | | | | | d]; cbn; try discriminate.
  intros [= <-]. eauto.
Qed.

(** X8. The observation mirrors the payload: the payload is a JSON object
    whose ["main"] object holds the five readings, which are copied as they
    are (no conversion, no range check), and the wind direction is the label
    of ["wind"]["deg"], or of 0 where the wind object or its ["deg"] is
    absent. *)
Theorem fetch_observation_fields (requests_get : request → http_outcome)
    (city api_key : string) (wd : gmap string pyval) (r : response) :
  fst (fetch_weather_data requests_get city api_key) = (Some wd, None) →
  requests_get (weather_request city api_key) = Responded r →
  ∃ d main wind l,
    body r = inl (VDict d) ∧
    dict_lookup "main" d = Some (VDict main) ∧
    default (VDict []) (dict_lookup "wind" d) = VDict wind ∧
    wd !! "MinTemp" = dict_lookup "temp_min" main ∧
    wd !! "MaxTemp" = dict_lookup "temp_max" main ∧
    wd !! "Humidity" = dict_lookup "humidity" main ∧
    wd !! "Pressure" = dict_lookup "pressure" main ∧
    wd !! "Temp" = dict_lookup "temp" main ∧
    degrees_to_cardinal (default (VInt 0) (dict_lookup "deg" wind)) = Ok l ∧
    wd !! "WindGustDir" = Some (VStr l).
Proof.
  intros Hfetch Hget.
  destruct (fetch_success _ _ _ _ _ Hfetch) as (_ & _ & _ & r' & Hget' & Hread).
  rewrite Hget in Hget'. injection Hget' as <-.
  unfold read_weather in Hread.
  apply bind_Ok in Hread as ([] & _ & Hread).
  apply bind_Ok in Hread as (data & Hjson & Hread).
  apply bind_Ok in Hread as (tmin & Htmin & Hread).
  apply bind_Ok in Hread as (tmax & Htmax & Hread).
  apply bind_Ok in Hread as (gust & _ & Hread).
  apply bind_Ok in Hread as (hum & Hhum & Hread).
  apply bind_Ok in Hread as (pres & Hpres & Hread).
  apply bind_Ok in Hread as (temp & Htemp & Hread).
  apply bind_Ok in Hread as (wdir & Hdir & Hread).
  injection Hread as <-.
  unfold response_json in Hjson.
  destruct (body r) as [data' | c] eqn:Hb; [injection Hjson as -> | discriminate].
  apply bind_Ok in Htmin as (m & Hmain & Htmin).
  apply py_getitem_Ok in Hmain as (d & -> & Hmain).
  apply py_getitem_Ok in Htmin as (main & -> & Htmin).
  cbn in Htmax, Hhum, Hpres, Htemp. rewrite Hmain in Htmax, Hhum, Hpres, Htemp.
  cbn in Htmax, Hhum, Hpres, Htemp.
  apply bind_Ok in Hdir as (deg & Hdeg & Hdir).
  apply bind_Ok in Hdeg as (w & Hw & Hdeg).
  apply py_get_Ok in Hw as (d' & [= <-] & ->).
  apply py_get_Ok in Hdeg as (wind & Hwind & ->).
  exists d, main, wind, wdir.
  destruct (dict_lookup "temp_max" main) eqn:?; [| discriminate].
  destruct (dict_lookup "humidity" main) eqn:?; [| discriminate].
  destruct (dict_lookup "pressure" main) eqn:?; [| discriminate].
  destruct (dict_lookup "temp" main) eqn:?; [| discriminate].
  simplify_eq.
  repeat split; try assumption; try reflexivity; by simplify_map_eq.
Qed.

Lemma fetch_observation_fields_witness :
  ∃ d main wind l,
    body (chandigarh_response 200 "OK") = inl (VDict d) ∧
    dict_lookup "main" d = Some (VDict main) ∧
    default (VDict []) (dict_lookup "wind" d) = VDict wind ∧
    chandigarh_weather !! "MinTemp" = dict_lookup "temp_min" main ∧
    chandigarh_weather !! "MaxTemp" = dict_lookup "temp_max" main ∧
    chandigarh_weather !! "Humidity" = dict_lookup "humidity" main ∧
    chandigarh_weather !! "Pressure" = dict_lookup "pressure" main ∧
    chandigarh_weather !! "Temp" = dict_lookup "temp" main ∧
    degrees_to_cardinal (default (VInt 0) (dict_lookup "deg" wind)) = Ok l ∧
    chandigarh_weather !! "WindGustDir" = Some (VStr l).
Proof.
  apply (fetch_observation_fields (always (chandigarh_response 200 "OK"))
           "Chandigarh" "k" chandigarh_weather (chandigarh_response 200 "OK")).
  - vm_compute. reflexivity.
  - reflexivity.
Defined.

(** X9. Without a ["wind"] object the fetch still succeeds when ["main"]
    holds the five readings: the gust speed is 0.0 and the direction is N. *)
Theorem fetch_without_wind (requests_get : request → http_outcome)
    (city api_key : string) (r : response) (d main : list (string * pyval))
    (tmin tmax hum pres temp : pyval) :
  str_truthy api_key = true → str_truthy city = true →
  requests_get (weather_request city api_key) = Responded r →
  ¬ (400 <= status_code r < 600) →
  body r = inl (VDict d) →
  dict_lookup "wind" d = None →
  dict_lookup "main" d = Some (VDict main) →
  dict_lookup "temp_min" main = Some tmin →
  dict_lookup "temp_max" main = Some tmax →
  dict_lookup "humidity" main = Some hum →
  dict_lookup "pressure" main = Some pres →
  dict_lookup "temp" main = Some temp →
  fst (fetch_weather_data requests_get city api_key)
    = (Some (<["MinTemp" := tmin]> (<["MaxTemp" := tmax]>
            (<["WindGustSpeed" := VFloat (S754_zero false)]>
            (<["Humidity" := hum]> (<["Pressure" := pres]>
            (<["Temp" := temp]> (<["WindGustDir" := VStr "N"]> ∅))))))),
       None).
Proof.
  intros Hk Hc Hget Hs Hb Hwind Hmain Htmin Htmax Hhum Hpres Htemp.
  unfold fetch_weather_data, try_block. rewrite Hk, Hc, Hget. cbn [negb].
  unfold read_weather, response_json, gust_or_speed.
  rewrite (raise_for_status_Ok r Hs), Hb. cbn.
  rewrite Hmain, Hwind. cbn.
  rewrite Htmin, Htmax, Hhum, Hpres, Htemp. reflexivity.
Qed.

Lemma fetch_without_wind_witness :
  fst (fetch_weather_data
         (always {| status_code := 200; reason := "OK"; url := "u";
                    body := inl (VDict [("main",
                      VDict [("temp", VInt 25); ("temp_min", VInt 20);
                             ("temp_max", VInt 30); ("humidity", VInt 60);
                             ("pressure", VInt 1012)])]) |})
         "Chandigarh" "k")
    = (Some (<["MinTemp" := VInt 20]> (<["MaxTemp" := VInt 30]>
            (<["WindGustSpeed" := VFloat (S754_zero false)]>
            (<["Humidity" := VInt 60]> (<["Pressure" := VInt 1012]>
            (<["Temp" := VInt 25]> (<["WindGustDir" := VStr "N"]> ∅))))))),
       None).
Proof.
  apply (fetch_without_wind _ "Chandigarh" "k"
           {| status_code := 200; reason := "OK"; url := "u";
              body := inl (VDict [("main",
                VDict [("temp", VInt 25); ("temp_min", VInt 20);
                       ("temp_max", VInt 30); ("humidity", VInt 60);
                       ("pressure", VInt 1012)])]) |}
           [("main", VDict [("temp", VInt 25); ("temp_min", VInt 20);
                            ("temp_max", VInt 30); ("humidity", VInt 60);
                            ("pressure", VInt 1012)])]
           [("temp", VInt 25); ("temp_min", VInt 20); ("temp_max", VInt 30);
            ("humidity", VInt 60); ("pressure", VInt 1012)]);
    try reflexivity.
  cbn. lia.
Defined.

(** ** Further properties of the feature builder *)

Lemma str_endswith_refl (s : string) : str_endswith s s = true.
Proof. destruct s; cbn [str_endswith]; by rewrite String.eqb_refl. Qed.

(** [a + w] ends with [w]. *)
Lemma str_endswith_app (a w : string) : str_endswith (a +:+ w) w = true.
Proof.
  induction a as [| c a IH].
  - apply str_endswith_refl.
  - change (String c a +:+ w) with (String c (a +:+ w)).
    cbn [str_endswith]. rewrite IH. apply orb_true_r.
Qed.

(** Column by column: what [build_input] puts into the frame. *)
Lemma build_input_columns (features : list string) (wd : gmap string pyval)
    (w : string) (df : frame) :
  wd !! "WindGustDir" = Some (VStr w) →
  build_input features wd = Ok df →
  Forall2 (λ c p, ∃ v, p = (c, v) ∧
             if str_contains "WindGustDir_" c
             then v = VInt (if str_endswith c w then 1 else 0)
             else c ≠ "WindGustDir" ∧ wd !! c = Some v)
          features df.
Proof.
  intros Hw Hbuild.
  destruct (build_input_Ok _ _ _ Hbuild) as (w' & m' & Hw' & Hloop & Hsel).
  rewrite Hw in Hw'. injection Hw' as <-.
  apply select_columns_Ok in Hsel.
  apply Forall2_same_length_lookup. split; [by eapply Forall2_length |].
  intros i c p Hc Hp.
  destruct (Forall2_lookup_lr _ _ _ _ _ _ Hsel Hc Hp) as (v & -> & Hv).
  exists v. split; [reflexivity |].
  rewrite (one_hot_loop_lookup _ _ _ _ c Hloop) in Hv.
  destruct (str_contains "WindGustDir_" c) eqn:Hm.
  - rewrite decide_True in Hv
      by (split; [by eapply list_elem_of_lookup_2 | done]).
    congruence.
  - rewrite decide_False in Hv by (intros [_ ?]; congruence).
    apply lookup_delete_Some in Hv as [Hne Hv]. split; [congruence | done].
Qed.

(** X10. With a string as wind direction the build step succeeds exactly
    when every feature of the model is a marker feature or an attribute of
    the observation other than [WindGustDir] itself (which was popped). *)
Theorem build_input_succeeds_iff (features : list string)
    (wd : gmap string pyval) (w : string) :
  wd !! "WindGustDir" = Some (VStr w) →
  (∃ df, build_input features wd = Ok df) ↔
  ∀ c, c ∈ features →
    str_contains "WindGustDir_" c = true ∨
    (c ≠ "WindGustDir" ∧ is_Some (wd !! c)).
Proof.
  intros Hw. split.
  - intros [df Hbuild] c Hc.
    pose proof (build_input_columns _ _ _ _ Hw Hbuild) as Hcols.
    apply list_elem_of_lookup in Hc as [i Hi].
    destruct (Forall2_lookup_l _ _ _ _ _ Hcols Hi) as (p & _ & v & -> & Hv).
    destruct (str_contains "WindGustDir_" c); [by left | right].
    destruct Hv as [? Hv]. split; [done | by rewrite Hv].
  - intros Hall.
    destruct (one_hot_loop_Ok w features (delete "WindGustDir" wd))
      as [m' Hloop].
    unfold build_input, dict_pop. rewrite Hw. cbn. rewrite Hloop. cbn.
    unfold select_columns.
    destruct (mapM _ features) as [row |] eqn:Hrow; [eauto |].
    exfalso.
    assert (His : is_Some (mapM (λ c, pair c <$> m' !! c) features)).
    { apply mapM_is_Some, Forall_forall. intros c Hc. cbn.
      rewrite (one_hot_loop_lookup _ _ _ _ c Hloop).
      destruct (Hall c Hc) as [Hm | [Hne [v Hv]]].
      - by rewrite decide_True.
      - case_decide; [done |].
        rewrite lookup_delete_ne by done. by rewrite Hv. }
    rewrite Hrow in His. by destruct His.
Qed.

Lemma build_input_succeeds_iff_witness :
  (∃ df, build_input ["WindGustDir"] chandigarh_weather = Ok df) ↔
  ∀ c, c ∈ ["WindGustDir"] →
    str_contains "WindGustDir_" c = true ∨
    (c ≠ "WindGustDir" ∧ is_Some (chandigarh_weather !! c)).
Proof.
  apply (build_input_succeeds_iff ["WindGustDir"] chandigarh_weather "E").
  vm_compute. reflexivity.
Defined.

(** X11. In the built frame every column that is no marker column holds the
    observation's value for that name, unchanged, and every marker column
    holds the integer 1 or 0: 1 exactly when its name ends with the wind
    direction. *)
Theorem build_input_values (features : list string) (wd : gmap string pyval)
    (w : string) (df : frame) (c : string) (v : pyval) :
  wd !! "WindGustDir" = Some (VStr w) →
  build_input features wd = Ok df →
  (c, v) ∈ df →
  c ∈ features ∧
  if str_contains "WindGustDir_" c
  then v = VInt (if str_endswith c w then 1 else 0)
  else wd !! c = Some v.
Proof.
  intros Hw Hbuild Hin.
  pose proof (build_input_columns _ _ _ _ Hw Hbuild) as Hcols.
  apply list_elem_of_lookup in Hin as [i Hi].
  destruct (Forall2_lookup_r _ _ _ _ _ Hcols Hi) as (c' & Hc' & v' & [= <- <-] & Hv).
  split; [by eapply list_elem_of_lookup_2 |].
  destruct (str_contains "WindGustDir_" c); [assumption | tauto].
Qed.

Lemma build_input_values_witness :
  "Humidity" ∈ full_features ∧
  if str_contains "WindGustDir_" "Humidity"
  then VInt 60 = VInt (if str_endswith "Humidity" "E" then 1 else 0)
  else chandigarh_weather !! "Humidity" = Some (VInt 60).
Proof.
  refine (build_input_values full_features chandigarh_weather "E" _
            "Humidity" (VInt 60) _ (build_input_chandigarh) _).
  - vm_compute. reflexivity.
  - do 3 apply list_elem_of_further. apply list_elem_of_here.
Defined.

(** X12. The column of the true wind direction is always set: if the model
    has the feature ["WindGustDir_" + w] and the build step succeeds, the
    frame holds 1 in that column. (Other marker columns may hold 1 as
    well.) *)
Theorem build_input_true_direction (features : list string)
    (wd : gmap string pyval) (w : string) (df : frame) :
  wd !! "WindGustDir" = Some (VStr w) →
  "WindGustDir_" +:+ w ∈ features →
  build_input features wd = Ok df →
  ("WindGustDir_" +:+ w, VInt 1) ∈ df.
Proof.
  intros Hw Hin Hbuild.
  pose proof (build_input_columns _ _ _ _ Hw Hbuild) as Hcols.
  apply list_elem_of_lookup in Hin as [i Hi].
  destruct (Forall2_lookup_l _ _ _ _ _ Hcols Hi) as (p & Hp & v & -> & Hv).
  rewrite (str_contains_here "WindGustDir_" ("WindGustDir_" +:+ w))
    in Hv by apply prefix_app.
  rewrite str_endswith_app in Hv. subst v.
  by eapply list_elem_of_lookup_2.
Qed.

Lemma build_input_true_direction_witness :
  ∃ df, build_input full_features chandigarh_weather = Ok df ∧
        ("WindGustDir_" +:+ "E", VInt 1) ∈ df.
Proof.
  eexists. split; [exact build_input_chandigarh |].
  apply (build_input_true_direction full_features chandigarh_weather "E").
  - vm_compute. reflexivity.
  - do 10 apply list_elem_of_further. apply list_elem_of_here.
  - exact build_input_chandigarh.
Defined.

(** X13. With one marker column per label, the marker columns of the built
    frame sum to 1 exactly for the ten wind directions that are a suffix of
    no other label: N, S and the eight three-letter labels. *)
Theorem one_hot_sum_is_one_iff (wd : gmap string pyval) (w : string)
    (df : frame) :
  w ∈ dirs →
  wd !! "WindGustDir" = Some (VStr w) →
  build_input full_features wd = Ok df →
  one_hot_sum df = 1 ↔ w ∈ suffix_free_dirs.
Proof.
  intros Hdir Hw Hbuild.
  rewrite (build_input_one_hot_sum _ _ _ _ Hw Hbuild).
  rewrite <- (bool_decide_spec (w ∈ suffix_free_dirs)).
  unfold dirs in Hdir.
  repeat (apply elem_of_cons in Hdir as [-> | Hdir]);
    [.. | by apply elem_of_nil in Hdir];
    vm_compute; intuition discriminate.
Qed.

Lemma one_hot_sum_is_one_iff_witness :
  ∃ df,
    build_input full_features (<["WindGustDir" := VStr "SSW"]> chandigarh_weather)
      = Ok df ∧
    (one_hot_sum df = 1 ↔ "SSW" ∈ suffix_free_dirs).
Proof.
  eexists. split; [vm_compute; reflexivity |].
  apply (one_hot_sum_is_one_iff
           (<["WindGustDir" := VStr "SSW"]> chandigarh_weather) "SSW").
  - do 9 apply list_elem_of_further. apply list_elem_of_here.
  - vm_compute. reflexivity.
  - vm_compute. reflexivity.
Defined.

(** ** Further properties of the script *)

(** A message returned by the fetcher is never empty, and comes without an
    observation. *)
Lemma fetch_message (requests_get : request → http_outcome)
    (city api_key : string) (o : option (gmap string pyval)) (m : string) :
  fst (fetch_weather_data requests_get city api_key) = (o, Some m) →
  o = None ∧ str_truthy m = true.
Proof.
  unfold fetch_weather_data.
  destruct (str_truthy api_key); cbn [negb]; [| by intros [= <- <-]].
  destruct (str_truthy city); cbn [negb]; [| by intros [= <- <-]].
  destruct (try_block requests_get city api_key) as [wd | e]; cbn;
    [discriminate |].
  intros [= <- <-]. auto using on_exception_truthy.
Qed.

(** X14. Every message of the fetcher reaches the page: the run shows it as
    the only widget and finishes, whether or not the button was pressed;
    neither the weather nor a prediction is shown. *)
Theorem fetch_error_is_shown (requests_get : request → http_outcome)
    (model_features : list string) (model_predict : frame → result Z)
    (model_predict_proba : frame → result spec_float)
    (city api_key : string) (clicked : bool) (o : option (gmap string pyval))
    (message : string) :
  str_truthy city = true →
  fst (fetch_weather_data requests_get city api_key) = (o, Some message) →
  main_content requests_get model_features model_predict model_predict_proba
    city api_key clicked
  = {| page := [st_error message]; uncaught := None |}.
Proof.
  intros Hcity Hfetch.
  destruct (fetch_message _ _ _ _ _ Hfetch) as [-> Hm].
  unfold main_content. rewrite Hcity, Hfetch, Hm. reflexivity.
Qed.

Lemma fetch_error_is_shown_witness :
  main_content (λ _, Failed "Connection refused") full_features
    stub_predict stub_predict_proba "Chandigarh" "k" true
  = {| page := [st_error "An unexpected error occurred: Connection refused"];
       uncaught := None |}.
Proof.
  apply (fetch_error_is_shown (λ _, Failed "Connection refused") full_features
           stub_predict stub_predict_proba "Chandigarh" "k" true None);
    reflexivity.
Defined.

(** X15. A run of the main content can end with an uncaught exception only
    in the prediction handler: the button was pressed, the fetch had
    succeeded, the live weather is already on the page, and the exception is
    the one raised by building the input or by the classifier. In
    particular a run without a press of the button always finishes. *)
Theorem main_content_uncaught (requests_get : request → http_outcome)
    (model_features : list string) (model_predict : frame → result Z)
    (model_predict_proba : frame → result spec_float)
    (city api_key : string) (clicked : bool) (e : exn) :
  uncaught (main_content requests_get model_features model_predict
              model_predict_proba city api_key clicked) = Some e →
  clicked = true ∧
  ∃ wd temp humidity pressure,
    fst (fetch_weather_data requests_get city api_key) = (Some wd, None) ∧
    page (main_content requests_get model_features model_predict
            model_predict_proba city api_key clicked)
      = [live_weather city temp humidity pressure] ∧
    on_predict model_features model_predict model_predict_proba wd = Raise e.
Proof.
  unfold main_content.
  destruct (str_truthy city); [| discriminate].
  destruct (fst (fetch_weather_data requests_get city api_key))
    as [o m] eqn:Hfetch.
  destruct m as [m |].
  { destruct (fetch_message _ _ _ _ _ Hfetch) as [-> ->]. discriminate. }
  destruct o as [wd |]; [| discriminate].
  destruct (show_weather_after_fetch _ _ _ _ Hfetch)
    as (Hne & _ & temp & hum & pres & Hshow).
  unfold show_content. rewrite bool_decide_false by done. rewrite Hshow.
  destruct clicked; [| discriminate].
  destruct (on_predict _ _ _ wd) as [card | e'] eqn:Hp; [discriminate |].
  cbn. intros [= ->]. split; [reflexivity |].
  exists wd, temp, hum, pres. auto.
Qed.

Lemma main_content_uncaught_witness :
  true = true ∧
  ∃ wd temp humidity pressure,
    fst (fetch_weather_data (always (chandigarh_response 200 "OK"))
           "Chandigarh" "k") = (Some wd, None) ∧
    page (main_content (always (chandigarh_response 200 "OK"))
            ["Rainfall"] stub_predict stub_predict_proba "Chandigarh" "k" true)
      = [live_weather "Chandigarh" temp humidity pressure] ∧
    on_predict ["Rainfall"] stub_predict stub_predict_proba wd
      = Raise (PyError KeyError "[Rainfall] not in index").
Proof.
  apply (main_content_uncaught (always (chandigarh_response 200 "OK"))
           ["Rainfall"] stub_predict stub_predict_proba "Chandigarh" "k" true
           (PyError KeyError "[Rainfall] not in index")).
  vm_compute. reflexivity.
Defined.

(** ** Model loading *)

